(** * Diet & workout recommendation app ([app.py]): model and properties

    A shallow embedding of the decision logic of [app.py]: the BMI
    computation and its four-way classification, the prompt template and its
    filling, the guarded call to the text-generation model, the usage log
    and the body of the results column that runs on a form submission; then
    the usage chart and the script from top to bottom, run after run.

    Python values are modelled as follows.
    - [float] is IEEE 754 binary64, carried by [spec_float] with the
      operations of [SpecFloat] at precision 53 and [emax] 1024
      (round to nearest, ties to even).
    - [str] is [string]; a character is a code point below 256.
    - [dict] with string keys is [gmap string _].
    - a computation that may raise is an [outcome]. *)

From Stdlib Require Import ZArith QArith Qabs String Ascii List Lia.
From Stdlib Require Import Floats.SpecFloat Sorting.Sorted.
From stdpp Require Import base option strings gmap.

Local Open Scope string_scope.
Local Open Scope Z_scope.

(** ** Binary64 arithmetic *)

Module Binary64.

Definition prec : Z := 53.
Definition emax : Z := 1024.

(** A Python [float]. *)
Definition float : Type := spec_float.

Definition is_binary64 (x : float) : bool := valid_binary prec emax x.

Definition mul : float -> float -> float := SFmul prec emax.
Definition div : float -> float -> float := SFdiv prec emax.
Definition ltb : float -> float -> bool := SFltb.
Definition leb : float -> float -> bool := SFleb.

Definition is_nan (x : float) : bool :=
  match x with S754_nan => true | _ => false end.

Definition is_inf (x : float) : bool :=
  match x with S754_infinity _ => true | _ => false end.

Definition is_zero (x : float) : bool :=
  match x with S754_zero _ => true | _ => false end.

(** The float nearest to the integer [n]; zero is [+0]. *)
Definition of_Z (n : Z) : float := binary_normalize prec emax n 0 false.

(** The float nearest to [(-1)^neg * m * 10^e], for [0 <= m]: what a
    correctly rounded decimal-to-binary conversion returns for the decimal
    numeral with digits [m] and exponent [e].  Overflow gives an infinity,
    underflow a subnormal or a zero. *)
Definition of_decimal (neg : bool) (m e : Z) : float :=
  match m with
  | Zpos p =>
      if 0 <=? e then binary_round prec emax neg (p * Z.to_pos (10 ^ e)) 0
      else
        let '(q, e', l) := SFdiv_core_binary prec emax (Zpos p) 0 (10 ^ (- e)) 0 in
        binary_round_aux prec emax neg q e' l
  | _ => S754_zero neg
  end.



End Binary64.

Import Binary64.

(** ** The Python builtins the program uses *)

Module Py.

(** What comes out of the remote call when it does not return. The program
    sees two things of it: whether it is an instance of [Exception], as the
    errors of Python and of the client library are (the interpreter's own
    [KeyboardInterrupt], [SystemExit] and [GeneratorExit] derive from
    [BaseException] only), and its [str(e)]. *)
Record fault := Fault { is_Exception : bool; str_of : string }.

(** Exceptions that reach the program. The builtins raise the first four. *)
Inductive exn :=
| ValueError
| ZeroDivisionError
| OverflowError
| KeyError (key : string)
| Remote (f : fault).

Inductive outcome (A : Type) :=
| Return (a : A)
| Raise (e : exn).
Arguments Return {A} a.
Arguments Raise {A} e.

#[export] Instance outcome_ret : MRet outcome := @Return.
#[export] Instance outcome_bind : MBind outcome := fun A B f m =>
  match m with
  | Return a => f a
  | Raise e => Raise e
  end.

#[export] Instance outcome_fmap : FMap outcome := fun A B f m =>
  match m with
  | Return a => Return (f a)
  | Raise e => Raise e
  end.

Definition raises {A} (m : outcome A) : bool :=
  match m with Raise _ => true | Return _ => false end.

(** Arguments of the builtin [float]: the form hands over [str] values; the
    numeric cases cover direct calls such as [calculate_bmi(70, 175)]. *)
Inductive pyval :=
| PyStr (s : string)
| PyInt (n : Z)
| PyFloat (x : float).

(** *** Truth values *)

(** [bool(s)] for a [str]. *)
Definition truthy (s : string) : bool :=
  match s with EmptyString => false | String _ _ => true end.

(** [a or b] on [str] operands. *)
Definition or_ (a b : string) : string := if truthy a then a else b.

(** [all(xs)] for a list of [str]. *)
Definition all (xs : list string) : bool := forallb truthy xs.

(** [bool(x)] for a [float]: false exactly at the two zeros. *)
Definition float_truthy (x : float) : bool := negb (is_zero x).

(** *** Reading numerals *)

Definition code (c : ascii) : Z := Z.of_N (N_of_ascii c).

(** [Py_ISSPACE]: blank, tab, line feed, vertical tab, form feed, carriage
    return. *)
Definition isspace (c : ascii) : bool :=
  (code c =? 32) || ((9 <=? code c) && (code c <=? 13)).

Definition digit_val (c : ascii) : option Z :=
  if (48 <=? code c) && (code c <=? 57) then Some (code c - 48) else None.

Definition isdigit (c : ascii) : bool :=
  match digit_val c with Some _ => true | None => false end.

(** [_PyUnicode_TransformDecimalAndSpaceToASCII]: an all-ASCII string is
    kept; otherwise code points below 127 are kept, white space becomes a
    blank (below 256 that is U+0085 and U+00A0; no decimal digit lies in
    128..255) and anything else becomes a question mark. The source cuts the
    string after the first question mark; as no numeral holds one, the cut
    is not modelled. *)
Definition to_ascii_char (c : ascii) : ascii :=
  if code c <? 127 then c
  else if (code c =? 133) || (code c =? 160) then " "%char
  else "?"%char.

Definition is_ascii_char (c : ascii) : bool := code c <? 128.

Definition transform (cs : list ascii) : list ascii :=
  if forallb is_ascii_char cs then cs else map to_ascii_char cs.

Fixpoint lstrip (cs : list ascii) : list ascii :=
  match cs with
  | c :: cs' => if isspace c then lstrip cs' else cs
  | [] => []
  end.

Definition strip (cs : list ascii) : list ascii :=
  rev (lstrip (rev (lstrip cs))).

(** A leading sign. *)
Definition sign (cs : list ascii) : bool * list ascii :=
  match cs with
  | "-"%char :: cs' => (true, cs')
  | "+"%char :: cs' => (false, cs')
  | _ => (false, cs)
  end.

(** The longest prefix of digits: its value on top of [acc], how many digits
    it has on top of [n], and what follows. *)
Fixpoint digits (acc n : Z) (cs : list ascii) : Z * Z * list ascii :=
  match cs with
  | c :: cs' =>
      match digit_val c with
      | Some d => digits (10 * acc + d) (n + 1) cs'
      | None => (acc, n, cs)
      end
  | [] => (acc, n, [])
  end.

(** [_Py_string_to_number_with_underscores]: an underscore must stand
    between two digits; the underscores are then dropped. *)
Fixpoint drop_underscores (prev : option ascii) (cs : list ascii)
  : option (list ascii) :=
  match cs with
  | [] =>
      match prev with
      | Some "_"%char => None
      | _ => Some []
      end
  | c :: cs' =>
      if Ascii.eqb c "_" then
        match prev with
        | Some p => if isdigit p then drop_underscores (Some c) cs' else None
        | None => None
        end
      else
        match prev with
        | Some "_"%char =>
            if isdigit c then cons c <$> drop_underscores (Some c) cs' else None
        | _ => cons c <$> drop_underscores (Some c) cs'
        end
  end.

Definition lower (c : ascii) : ascii :=
  if (65 <=? code c) && (code c <=? 90)
  then ascii_of_N (Z.to_N (code c + 32)) else c.

(** [_Py_parse_inf_or_nan], after the sign: [inf], [infinity] or [nan] in
    any case. *)
Definition inf_or_nan (neg : bool) (cs : list ascii) : option float :=
  let w := string_of_list_ascii (map lower cs) in
  if String.eqb w "inf" || String.eqb w "infinity" then Some (S754_infinity neg)
  else if String.eqb w "nan" then Some S754_nan
  else None.

(** A decimal numeral after the sign, read to the end: digits with an
    optional point, at least one digit, and an optional exponent. Gives the
    digits as an integer and the power of ten. *)
Definition decimal (cs : list ascii) : option (Z * Z) :=
  let '(ip, ni, r1) := digits 0 0 cs in
  let '(m, nf, r2) :=
    match r1 with
    | "."%char :: r => digits ip 0 r
    | _ => (ip, 0, r1)
    end in
  if ni + nf =? 0 then None
  else
    match r2 with
    | [] => Some (m, - nf)
    | c :: r3 =>
        if Ascii.eqb (lower c) "e" then
          let '(eneg, r4) := sign r3 in
          match digits 0 0 r4 with
          | (ev, ne, []) =>
              if ne =? 0 then None
              else Some (m, (if eneg then - ev else ev) - nf)
          | _ => None
          end
        else None
    end.

(** [float(s)] for a [str]: [PyFloat_FromString]. The numeral is converted
    with correct rounding; a numeral too large gives an infinity. *)
Definition float_of_str (s : string) : outcome float :=
  let cs := strip (transform (list_ascii_of_string s)) in
  let cleaned :=
    if existsb (Ascii.eqb "_") cs then drop_underscores None cs else Some cs in
  match cleaned with
  | None => Raise ValueError
  | Some cs' =>
      let '(neg, body) := sign cs' in
      match decimal body with
      | Some (m, e) => Return (of_decimal neg m e)
      | None =>
          match inf_or_nan neg body with
          | Some x => Return x
          | None => Raise ValueError
          end
      end
  end.

(** [float(n)] for an [int]: correctly rounded, [OverflowError] when the
    result would not be finite. *)
Definition float_of_int (n : Z) : outcome float :=
  let x := of_Z n in
  if is_inf x then Raise OverflowError else Return x.

(** The builtin [float]. *)
Definition float_ (v : pyval) : outcome float :=
  match v with
  | PyStr s => float_of_str s
  | PyInt n => float_of_int n
  | PyFloat x => Return x
  end.

(** Digits of an [int] literal: single underscores between digits only.
    [seen] tells whether a digit came just before. *)
Fixpoint int_digits (acc n : Z) (seen : bool) (cs : list ascii)
  : option (Z * Z * list ascii) :=
  match cs with
  | c :: cs' =>
      match digit_val c with
      | Some d => int_digits (10 * acc + d) (n + 1) true cs'
      | None =>
          if Ascii.eqb c "_" then
            if seen then
              match cs' with
              | c' :: _ => if isdigit c' then int_digits acc n false cs' else None
              | [] => None
              end
            else None
          else if seen then Some (acc, n, cs) else None
      end
  | [] => if seen then Some (acc, n, []) else None
  end.

(** [sys.int_info.default_max_str_digits]. *)
Definition max_str_digits : Z := 4300.

(** [int(s)] for a [str], base ten: [PyLong_FromString]. *)
Definition int_of_str (s : string) : outcome Z :=
  let cs := lstrip (transform (list_ascii_of_string s)) in
  let '(neg, body) := sign cs in
  match int_digits 0 0 false body with
  | Some (v, n, rest) =>
      match lstrip rest with
      | [] =>
          if max_str_digits <? n then Raise ValueError
          else Return (if neg then - v else v)
      | _ => Raise ValueError
      end
  | None => Raise ValueError
  end.

(** *** Float arithmetic *)

(** [a / b] on floats: [float_div]. *)
Definition truediv (a b : float) : outcome float :=
  if is_zero b then Raise ZeroDivisionError else Return (div a b).

(** [x ** 2] on a float: [float_pow] with exponent two. The special values
    are settled before the C library is asked; for the rest [pow] is taken
    to round correctly, and an infinite result is an [OverflowError]. *)
Definition pow2 (x : float) : outcome float :=
  match x with
  | S754_nan => Return S754_nan
  | S754_infinity _ => Return (S754_infinity false)
  | S754_zero _ => Return (S754_zero false)
  | S754_finite _ _ _ =>
      let y := mul x x in
      if is_inf y then Raise OverflowError else Return y
  end.

(** *** [str.format] with keyword arguments *)

Inductive segment :=
| Lit (c : ascii)
| Field (name : string).

(** The pieces of a format string, for the part of the syntax that
    [prompt_template_resto] uses: text, doubled braces and [{name}] fields.
    [field] holds the name being read, backwards. [None] stands for a
    malformed string and for the syntax left out (conversions, format
    specifications, attributes, indices, positional fields). *)
Fixpoint scan (field : option (list ascii)) (cs : list ascii)
  : option (list segment) :=
  match field, cs with
  | None, [] => Some []
  | Some _, [] => None
  | Some nm, c :: cs' =>
      if Ascii.eqb c "}" then
        if forallb isdigit nm then None
        else cons (Field (string_of_list_ascii (rev nm))) <$> scan None cs'
      else if existsb (Ascii.eqb c) (list_ascii_of_string "{!:.[]") then None
      else scan (Some (c :: nm)) cs'
  | None, c :: cs' =>
      if Ascii.eqb c "{" then
        match cs' with
        | c' :: cs'' =>
            if Ascii.eqb c' "{" then cons (Lit "{") <$> scan None cs''
            else scan (Some []) cs'
        | [] => None
        end
      else if Ascii.eqb c "}" then
        match cs' with
        | c' :: cs'' =>
            if Ascii.eqb c' "}" then cons (Lit "}") <$> scan None cs'' else None
        | [] => None
        end
      else cons (Lit c) <$> scan None cs'
  end.

(** Substitution, left to right; a missing key is a [KeyError]. A [str]
    value formats as itself. *)
Fixpoint fill (segs : list segment) (kwargs : gmap string string)
  : outcome string :=
  match segs with
  | [] => Return ""
  | Lit c :: segs' => rest ← fill segs' kwargs; Return (String c rest)
  | Field k :: segs' =>
      match kwargs !! k with
      | Some v => rest ← fill segs' kwargs; Return (v ++ rest)
      | None => Raise (KeyError k)
      end
  end.

(** [template.format] applied to the dictionary as keyword arguments. *)
Definition format (template : string) (kwargs : gmap string string)
  : outcome string :=
  match scan None (list_ascii_of_string template) with
  | Some segs => fill segs kwargs
  | None => Raise ValueError
  end.

End Py.

Import Py.

(** ** The program *)

Module App.

(** *** The prompt, line 21 *)

Definition prompt_template_resto : string := "
Diet Recommendation System:
Based on the following user profile, provide detailed, well-formatted recommendations:

User Profile:
- Name: {name}
- Age: {age}
- Gender: {gender}
- Weight: {weight} kg
- Height: {height} cm
- Diet Preference: {veg_or_nonveg}
- Health Conditions: {disease}
- Region: {region}
- State: {state}
- Allergies: {allergics}
- Food Type Preference: {foodtype}

Please provide recommendations in the following CLEARLY SEPARATED sections:

## RESTAURANTS
Provide 6 restaurant names suitable for this person's diet and preferences. Include a brief description of each.

## BREAKFAST IDEAS
Suggest 6 nutritious breakfast options tailored to their needs. Include ingredients and brief preparation notes.

## DINNER IDEAS
Recommend 5 balanced dinner options appropriate for their diet. Include key ingredients.

## WORKOUT RECOMMENDATIONS
Suggest 6 exercise activities suited to their profile. Include frequency and duration guidelines.

## HEALTH NOTES
Provide 3-4 specific health tips based on their profile.

Format each section with clear headings, bullet points, and concise descriptions.
".

(** *** BMI, lines 107-124 *)

(** [try: body except: handler], with a bare [except]. *)
Definition try_except_all {A} (body handler : outcome A) : outcome A :=
  match body with
  | Return a => Return a
  | Raise _ => handler
  end.

(** The statements under [try] in [calculate_bmi], lines 109-112. *)
Definition calculate_bmi_body (weight height : pyval) : outcome float :=
  weight_kg ← float_ weight;
  h ← float_ height;
  height_m ← truediv h (of_Z 100);
  squared ← pow2 height_m;
  bmi ← truediv weight_kg squared;
  Return bmi.

(** Lines 107-114. The result [None] is Python's [None]. *)
Definition calculate_bmi (weight height : pyval) : outcome (option float) :=
  try_except_all (Some <$> calculate_bmi_body weight height) (Return None).

(** The float literals of lines 117, 119 and 121. *)
Definition lit_18_5 : float := of_decimal false 185 (-1).
Definition lit_24_9 : float := of_decimal false 249 (-1).
Definition lit_29_9 : float := of_decimal false 299 (-1).

(** Lines 116-124: category, colour, message. *)
Definition categorize_bmi (bmi : float) : string * string * string :=
  if ltb bmi lit_18_5 then
    ("Underweight", "blue",
     "Consider consulting with a healthcare provider about healthy weight gain.")
  else if ltb bmi lit_24_9 then
    ("Normal", "green",
     "Your weight is within a healthy range for your height.")
  else if ltb bmi lit_29_9 then
    ("Overweight", "orange",
     "Consider moderate lifestyle changes to achieve a healthier weight.")
  else
    ("Obesity", "red",
     "Consider consulting with a healthcare provider about weight management.").

Definition category (r : string * string * string) : string := r.1.1.
Definition color (r : string * string * string) : string := r.1.2.
Definition message (r : string * string * string) : string := r.2.

(** *** The form and the session *)

(** The values of the form widgets at a run of the script, lines 219-246.
    [gender] and [veg_or_nonveg] come from select boxes, the rest from text
    inputs. *)
Record form := Form {
  name : string;
  age : string;
  gender : string;
  weight : string;
  height : string;
  veg_or_nonveg : string;
  disease : string;
  region : string;
  state : string;
  allergics : string;
  foodtype : string;
  submit_button : bool
}.

(** A reading of [datetime.now()]. *)
Definition datetime : Type := Z.

(** An entry of [st.session_state.usage_data]. *)
Record usage_entry := UsageEntry {
  timestamp : datetime;
  user_age : string;
  user_region : string
}.

(** What the results column shows. The HTML wrappers are kept as
    constructors; the BMI box and the 3-D figure keep the values that their
    f-strings print. *)
Inductive element :=
| div_open (class : string)
| div_close
| section_header (text : string)
| bmi_container (bmi : float) (category color message : string)
| markdown (body : string)
| error (body : string)
| plotly_scatter3d (x : Z) (y z : float) (color : string)
    (age weight category : string).

(** The state a run works on: the usage log of the session, the prompts
    handed to the model so far and the elements rendered so far, each oldest
    first. *)
Record world := World {
  usage_data : list usage_entry;
  sent : list string;
  page : list element
}.

(** Statements: they change the world, then return or raise. *)
Definition run (A : Type) : Type := world -> world * outcome A.

#[export] Instance run_ret : MRet run := fun A a w => (w, Return a).
#[export] Instance run_bind : MBind run := fun A B f m w =>
  match m w with
  | (w', Return a) => f a w'
  | (w', Raise e) => (w', Raise e)
  end.

Definition lift {A} (m : outcome A) : run A := fun w => (w, m).

(** [st.session_state.usage_data.append(entry)]. *)
Definition append_usage (entry : usage_entry) : run unit := fun w =>
  (World (usage_data w ++ [entry])%list (sent w) (page w), Return tt).

(** A call of a rendering function of [st]. *)
Definition st (e : element) : run unit := fun w =>
  (World (usage_data w) (sent w) (page w ++ [e])%list, Return tt).

(** Lines 71-77. *)
Definition capture_usage (now : datetime) (user_data : gmap string string)
  : run unit :=
  let usage_entry :=
    UsageEntry now
      (default "Unknown" (user_data !! "age"))
      (default "Unknown" (user_data !! "region")) in
  append_usage usage_entry.

(** Lines 255-261. *)
Definition input_data (f : form) : gmap string string :=
  {[ "name" := name f; "age" := age f; "gender" := gender f;
     "weight" := weight f; "height" := height f;
     "veg_or_nonveg" := veg_or_nonveg f; "disease" := or_ (disease f) "None";
     "region" := or_ (region f) "Not specified";
     "state" := or_ (state f) "Not specified";
     "allergics" := or_ (allergics f) "None";
     "foodtype" := or_ (foodtype f) "General" ]}.

(** The test of line 253. *)
Definition required_filled (f : form) : bool :=
  all [name f; age f; gender f; weight f; height f; veg_or_nonveg f].

(** The reply of the remote model to a prompt: its text, or what the call
    raised. *)
Inductive reply :=
| Text (text : string)
| Failure (f : fault).

Section Program.

(** [model.generate_content(prompt).text], lines 62-63: the hosted model,
    seen from outside. *)
Variable generate_content : string -> reply.

(** The remote call, recorded in [sent]. *)
Definition ask_model (prompt : string) : run reply := fun w =>
  (World (usage_data w) (sent w ++ [prompt])%list (page w),
   Return (generate_content prompt)).

(** Lines 59-65. The template is filled before the [try]; [except Exception]
    lets through what is not an [Exception]. *)
Definition generate_recommendations (inputs : gmap string string)
  : run string :=
  prompt ← lift (format prompt_template_resto inputs);
  response ← ask_model prompt;
  match response with
  | Text text => mret text
  | Failure e =>
      if is_Exception e
      then mret ("Error generating recommendations: " ++ str_of e)
      else lift (Raise (Remote e))
  end.

(** [if bmi: ...] for the result of [calculate_bmi]. *)
Definition if_bmi (bmi : option float) (body : float -> run unit) : run unit :=
  match bmi with
  | Some b => if float_truthy b then body b else mret tt
  | None => mret tt
  end.

(** Lines 252-318: the results column. The spinner of line 254 shows
    nothing that stays. *)
Definition results_column (now : datetime) (f : form) : run unit :=
  if submit_button f then
    if required_filled f then
      capture_usage now (input_data f);;
      bmi ← lift (calculate_bmi (PyStr (weight f)) (PyStr (height f)));
      recommendations ← generate_recommendations (input_data f);
      st (div_open "results-container");;
      st (section_header
            ("Hello " ++ name f ++ "! Here are your personalized recommendations:"));;
      if_bmi bmi (fun b =>
        let r := categorize_bmi b in
        st (bmi_container b (category r) (color r) (message r)));;
      st (div_open "markdown-text-container");;
      st (markdown recommendations);;
      st div_close;;
      st div_close;;
      if_bmi bmi (fun b =>
        let r := categorize_bmi b in
        st (section_header "BMI Visualization");;
        x ← lift (int_of_str (age f));
        y ← lift (float_ (PyStr (weight f)));
        st (plotly_scatter3d x y b (color r) (age f) (weight f) (category r)))
    else
      st (div_open "results-container");;
      st (error "Please fill in all required fields to generate recommendations.");;
      st div_close
  else mret tt.

End Program.

End App.

Import App.

(** ** Statements' vocabulary *)

(** A [str] that [float] refuses. *)
Definition non_numeric (v : pyval) : bool :=
  match v with
  | PyStr s => raises (float_of_str s)
  | _ => false
  end.

(** The float literal [29.89]. *)
Definition lit_29_89 : float := of_decimal false 2989 (-2).

(** The prompt for given field values: the text of [prompt_template_resto]
    with each field replaced. *)
Definition prompt_text
  (name age gender weight height veg_or_nonveg
   disease region state allergics foodtype : string) : string :=
  ("
Diet Recommendation System:
Based on the following user profile, provide detailed, well-formatted recommendations:

User Profile:
- Name: "
  ++ name
  ++ "
- Age: "
  ++ age
  ++ "
- Gender: "
  ++ gender
  ++ "
- Weight: "
  ++ weight
  ++ " kg
- Height: "
  ++ height
  ++ " cm
- Diet Preference: "
  ++ veg_or_nonveg
  ++ "
- Health Conditions: "
  ++ disease
  ++ "
- Region: "
  ++ region
  ++ "
- State: "
  ++ state
  ++ "
- Allergies: "
  ++ allergics
  ++ "
- Food Type Preference: "
  ++ foodtype
  ++ "

Please provide recommendations in the following CLEARLY SEPARATED sections:

## RESTAURANTS
Provide 6 restaurant names suitable for this person's diet and preferences. Include a brief description of each.

## BREAKFAST IDEAS
Suggest 6 nutritious breakfast options tailored to their needs. Include ingredients and brief preparation notes.

## DINNER IDEAS
Recommend 5 balanced dinner options appropriate for their diet. Include key ingredients.

## WORKOUT RECOMMENDATIONS
Suggest 6 exercise activities suited to their profile. Include frequency and duration guidelines.

## HEALTH NOTES
Provide 3-4 specific health tips based on their profile.

Format each section with clear headings, bullet points, and concise descriptions.
")%string.

(** The text pieces and fields of [prompt_template_resto], in order. *)
Definition lits (s : string) : list segment := map Lit (list_ascii_of_string s).

Definition prompt_segments : list segment :=
  (lits "
Diet Recommendation System:
Based on the following user profile, provide detailed, well-formatted recommendations:

User Profile:
- Name: " ++ Field "name" ::
  lits "
- Age: " ++ Field "age" ::
  lits "
- Gender: " ++ Field "gender" ::
  lits "
- Weight: " ++ Field "weight" ::
  lits " kg
- Height: " ++ Field "height" ::
  lits " cm
- Diet Preference: " ++ Field "veg_or_nonveg" ::
  lits "
- Health Conditions: " ++ Field "disease" ::
  lits "
- Region: " ++ Field "region" ::
  lits "
- State: " ++ Field "state" ::
  lits "
- Allergies: " ++ Field "allergics" ::
  lits "
- Food Type Preference: " ++ Field "foodtype" ::
  lits "

Please provide recommendations in the following CLEARLY SEPARATED sections:

## RESTAURANTS
Provide 6 restaurant names suitable for this person's diet and preferences. Include a brief description of each.

## BREAKFAST IDEAS
Suggest 6 nutritious breakfast options tailored to their needs. Include ingredients and brief preparation notes.

## DINNER IDEAS
Recommend 5 balanced dinner options appropriate for their diet. Include key ingredients.

## WORKOUT RECOMMENDATIONS
Suggest 6 exercise activities suited to their profile. Include frequency and duration guidelines.

## HEALTH NOTES
Provide 3-4 specific health tips based on their profile.

Format each section with clear headings, bullet points, and concise descriptions.
")%list.

(** The prompt of a submission, with the defaults of lines 258-260. *)
Definition prompt_of (f : form) : string :=
  prompt_text (name f) (age f) (gender f) (weight f) (height f)
    (veg_or_nonveg f) (or_ (disease f) "None")
    (or_ (region f) "Not specified") (or_ (state f) "Not specified")
    (or_ (allergics f) "None") (or_ (foodtype f) "General").

(** The usage entry of a submission read at [now]. *)
Definition usage_of (now : datetime) (f : form) : usage_entry :=
  UsageEntry now (age f) (or_ (region f) "Not specified").

(** What is shown for a reply that [generate_recommendations] returns. *)
Definition shown (r : reply) : string :=
  match r with
  | Text text => text
  | Failure e => "Error generating recommendations: " ++ str_of e
  end.

(** The reply is a text or a failure that [except Exception] catches. *)
Definition caught (r : reply) : bool :=
  match r with
  | Text _ => true
  | Failure e => is_Exception e
  end.

(** The results column of a valid submission without a BMI box. *)
Definition results_without_bmi (f : form) (recommendations : string)
  : list element :=
  [ div_open "results-container";
    section_header
      ("Hello " ++ name f ++ "! Here are your personalized recommendations:");
    div_open "markdown-text-container";
    markdown recommendations;
    div_close;
    div_close ].

(** The results column of a valid submission with a BMI box and the BMI
    figure. *)
Definition results_with_bmi (f : form) (bmi : float) (x : Z) (y : float)
  (recommendations : string) : list element :=
  let r := categorize_bmi bmi in
  [ div_open "results-container";
    section_header
      ("Hello " ++ name f ++ "! Here are your personalized recommendations:");
    bmi_container bmi (category r) (color r) (message r);
    div_open "markdown-text-container";
    markdown recommendations;
    div_close;
    div_close;
    section_header "BMI Visualization";
    plotly_scatter3d x y bmi (color r) (age f) (weight f) (category r) ].

(** The elements that show the BMI: the box, the heading of the figure and
    the figure. *)
Definition shows_bmi (e : element) : bool :=
  match e with
  | bmi_container _ _ _ _ => true
  | plotly_scatter3d _ _ _ _ _ _ _ => true
  | section_header text => String.eqb text "BMI Visualization"
  | _ => false
  end.

(** The results column when a required field is missing. *)
Definition validation_error : list element :=
  [ div_open "results-container";
    error "Please fill in all required fields to generate recommendations.";
    div_close ].

(** An empty session. *)
Definition empty_world : world := World [] [] [].

(** Sample submissions: the optional fields blank; a weight in words. *)
Definition blank_optional_form : form :=
  Form "Ann" "30" "Female" "70" "175" "Vegan" "" "" "" "" "" true.

Definition unparsed_weight_form : form :=
  Form "Ann" "30" "Female" "seventy" "175" "Vegan" "" "Pune" "" "" "" true.

(** ** Further vocabulary *)

(** The options of the select boxes of lines 226 and 234. *)
Definition gender_options : list string := ["Male"; "Female"; "Other"].

Definition diet_options : list string :=
  ["Vegetarian"; "Non-Vegetarian"; "Vegan"; "Pescatarian"].

(** A form as the widgets hand it over: a select box returns one of its
    options. *)
Definition from_widgets (f : form) : Prop :=
  gender f ∈ gender_options /\ veg_or_nonveg f ∈ diet_options.

(** A submission that passes the test of line 253. *)
Definition valid (f : form) : bool := submit_button f && required_filled f.

(** The fields of [prompt_template_resto], in the order of the text. *)
Definition prompt_fields : list string :=
  ["name"; "age"; "gender"; "weight"; "height"; "veg_or_nonveg"; "disease";
   "region"; "state"; "allergics"; "foodtype"].

(** The field names of a format string, in the order of the text. *)
Definition fields (segs : list segment) : list string :=
  omap (fun s => match s with Field k => Some k | Lit _ => None end) segs.

(** The place of a category among the four, lightest first. *)
Definition rank (category : string) : nat :=
  if String.eqb category "Underweight" then 0
  else if String.eqb category "Normal" then 1
  else if String.eqb category "Overweight" then 2
  else 3.

(** The results column up to the heading of the BMI figure. *)
Definition results_before_figure (f : form) (bmi : float)
  (recommendations : string) : list element :=
  let r := categorize_bmi bmi in
  [ div_open "results-container";
    section_header
      ("Hello " ++ name f ++ "! Here are your personalized recommendations:");
    bmi_container bmi (category r) (color r) (message r);
    div_open "markdown-text-container";
    markdown recommendations;
    div_close;
    div_close;
    section_header "BMI Visualization" ].

(** A usage entry with an age and a region that are not blank. *)
Definition entry_filled (e : usage_entry) : bool :=
  truthy (user_age e) && truthy (user_region e).

(** A float that is neither NaN nor infinite. *)
Definition is_finite (x : float) : bool :=
  match x with
  | S754_zero _ | S754_finite _ _ _ => true
  | _ => false
  end.

(** Sample submissions: an age with a decimal point; a weight of zero. *)
Definition decimal_age_form : form :=
  Form "Ann" "30.5" "Female" "70" "175" "Vegan" "" "" "" "" "" true.

Definition zero_weight_form : form :=
  Form "Ann" "30" "Female" "0" "175" "Vegan" "" "" "" "" "" true.

(** ** The rest of the script *)

Module Script.

(** *** Dates *)

(** A calendar day as its proleptic Gregorian ordinal, the number that
    [date.toordinal()] gives: day 1 is 1 January of year 1. *)
Definition date : Type := Z.

(** [date(y, m, d)], for a day that exists. *)
Definition ymd (y m d : Z) : date :=
  let y' := if m <=? 2 then y - 1 else y in
  let era := y' / 400 in
  let yoe := y' - era * 400 in
  let mp := if m <=? 2 then m + 9 else m - 3 in
  let doy := (153 * mp + 2) / 5 + d - 1 in
  let doe := yoe * 365 + yoe / 4 - yoe / 100 + doy in
  era * 146097 + doe - 305.

(** Year, month and day of a date. *)
Definition civil (n : date) : Z * Z * Z :=
  let z := n + 305 in
  let era := z / 146097 in
  let doe := z - era * 146097 in
  let yoe := (doe - doe / 1460 + doe / 36524 - doe / 146096) / 365 in
  let doy := doe - (365 * yoe + yoe / 4 - yoe / 100) in
  let mp := (5 * doy + 2) / 153 in
  let d := doy - (153 * mp + 2) / 5 + 1 in
  let m := if mp <? 10 then mp + 3 else mp - 9 in
  let y := yoe + era * 400 + (if m <=? 2 then 1 else 0) in
  (y, m, d).

(** [date.weekday()]: Monday is 0. *)
Definition weekday (n : date) : Z := (n + 6) mod 7.

(** The last [width] decimal digits of [n], with leading zeros. *)
Fixpoint zfill (width : nat) (n : Z) : string :=
  match width with
  | O => ""
  | S width' =>
      zfill width' (n / 10) ++ String (ascii_of_N (Z.to_N (48 + n mod 10))) ""
  end.

(** [strftime("%Y-%m-%d")], for the years 1000 to 9999. *)
Definition strftime (n : date) : string :=
  let '(y, m, d) := civil n in
  zfill 4 y ++ "-" ++ zfill 2 m ++ "-" ++ zfill 2 d.

(** [pd.date_range(start, end, freq='W-MON')]: the Mondays from [start] to
    [end_], both included, as dates. *)
Definition date_range_W_MON (start end_ : date) : list date :=
  let first := start + (7 - weekday start) mod 7 in
  map (fun i => first + 7 * Z.of_nat i)
    (seq 0 (Z.to_nat ((end_ - first) / 7 + 1))).

(** *** The usage chart, lines 79-104 *)

(** The figure handed to [st.plotly_chart]: a bar trace and its layout. *)
Record bar_figure := BarFigure {
  bar_x : list string;
  bar_y : list Z;
  bar_text : list Z;
  title : string;
  xaxis_title : string;
  yaxis_title : string
}.

(** Line 80. *)
Definition start_date : date := ymd 2024 1 1.

(** Line 84. *)
Definition usage_count : list Z :=
  [10; 20; 15; 25; 30; 5; 10; 8; 15; 18; 8; 15; 10; 20; 22].

(** Lines 79-104, for [date.today()] equal to [today]. *)
Definition create_usage_tracking_graph (today : date) : bar_figure :=
  let end_date := today in
  let date_range := date_range_W_MON start_date end_date in
  let weeks := map strftime date_range in
  BarFigure weeks usage_count usage_count
    "Weekly Usage Tracking" "Week" "Usage Count".

(** *** The script from top to bottom *)

(** What a run of the script puts on the page. The fixed pieces of HTML are
    kept by name. *)
Inductive block :=
| api_key_missing
| page_style
| main_header
| subtitle_powered
| form_column
| results (e : element)
| subtitle_usage
| usage_chart (fig : bar_figure)
| disclaimer.

(** What lasts from one run to the next: the key [usage_data] of
    [st.session_state], absent in a new session, and the prompts handed to
    the model so far. *)
Record session := Session {
  usage : option (list usage_entry);
  prompts : list string
}.

(** [not google_api_key], line 12, for the result of [os.getenv]. *)
Definition key_missing (google_api_key : option string) : bool :=
  match google_api_key with
  | Some key => negb (truthy key)
  | None => true
  end.

(** One run of the script: the check of the key with [st.stop()], lines
    11-14; the usage log of lines 68-69; style, headers and form; the results
    column; the usage statistics and the footer, lines 321-330. An exception
    ends the run where it is raised. *)
Definition script (generate_content : string -> reply)
  (google_api_key : option string) (now : datetime) (today : date)
  (f : form) (s : session) : session * list block * outcome unit :=
  if key_missing google_api_key then (s, [api_key_missing], Return tt)
  else
    let usage_data0 := default [] (usage s) in
    let top := [page_style; main_header; subtitle_powered; form_column] in
    let '(w, o) :=
      results_column generate_content now f (World usage_data0 (prompts s) []) in
    let s' := Session (Some (usage_data w)) (sent w) in
    match o with
    | Return _ =>
        (s',
         (top ++ map results (page w) ++
          [subtitle_usage; usage_chart (create_usage_tracking_graph today);
           disclaimer])%list,
         Return tt)
    | Raise e => (s', (top ++ map results (page w))%list, Raise e)
    end.

(** An interaction: the clock, the day, the form values and the behaviour of
    the remote model at one run. *)
Record interaction := Interaction {
  at_time : datetime;
  on_day : date;
  with_form : form;
  remote : string -> reply
}.

(** The session after a sequence of runs. *)
Fixpoint session_after (google_api_key : option string)
  (runs : list interaction) (s : session) : session :=
  match runs with
  | [] => s
  | r :: runs' =>
      session_after google_api_key runs'
        (script (remote r) google_api_key (at_time r) (on_day r)
           (with_form r) s).1.1
  end.

End Script.

Import Script.

(** * Properties *)

(** ** Checks of the decimal conversion *)


Example of_decimal_18_5 :
  of_decimal false 185 (-1) = S754_finite false 5207287069147136 (-48).
Proof. vm_compute. reflexivity. Qed.

Example of_decimal_24_9 :
  of_decimal false 249 (-1) = S754_finite false 7008726920095334 (-48).
Proof. vm_compute. reflexivity. Qed.

Example of_decimal_29_9 :
  of_decimal false 299 (-1) = S754_finite false 8416101803648614 (-48).
Proof. vm_compute. reflexivity. Qed.

Example of_decimal_29_89 :
  of_decimal false 2989 (-2) = S754_finite false 8413287053881508 (-48).
Proof. vm_compute. reflexivity. Qed.

Example of_decimal_min_subnormal :
  of_decimal false 5 (-324) = S754_finite false 1 (-1074).
Proof. vm_compute. reflexivity. Qed.

Example of_decimal_max :
  of_decimal false 17976931348623157 292 = S754_finite false 9007199254740991 971.
Proof. vm_compute. reflexivity. Qed.

Example of_decimal_overflow : of_decimal true 1 400 = S754_infinity true.
Proof. vm_compute. reflexivity. Qed.

Example of_decimal_underflow : of_decimal false 1 (-400) = S754_zero false.
Proof. vm_compute. reflexivity. Qed.

Example of_Z_100 : of_Z 100 = S754_finite false 7036874417766400 (-46).
Proof. vm_compute. reflexivity. Qed.

(** ** Order on floats *)

Lemma SFcompare_finite s1 m1 e1 s2 m2 e2 :
  SFcompare (S754_finite s1 m1 e1) (S754_finite s2 m2 e2) =
  Some match s1, s2 with
    | true, false => Lt
    | false, true => Gt
    | false, false =>
        match e1 ?= e2 with Lt => Lt | Gt => Gt | Eq => (m1 ?= m2)%positive end
    | true, true =>
        match e1 ?= e2 with Lt => Gt | Gt => Lt | Eq => CompOpp (m1 ?= m2)%positive end
    end.
Proof. reflexivity. Qed.








Lemma thresholds_binary64 :
  is_binary64 lit_18_5 = true /\ is_binary64 lit_24_9 = true /\
  is_binary64 lit_29_9 = true /\ is_binary64 lit_29_89 = true.
Proof. repeat split; vm_compute; reflexivity. Qed.

(** A comparison with NaN is false, so NaN reaches the last branch. *)
Lemma categorize_bmi_nan : category (categorize_bmi S754_nan) = "Obesity".
Proof. reflexivity. Qed.

(** ** Classification *)



(** C5, as the messages are listed: refuted by a BMI of 17, which is
    Underweight and whose message reads [consulting with a healthcare
    provider]. *)
Lemma listed_advisory_differs :
  category (categorize_bmi (of_Z 17)) = "Underweight" /\
  message (categorize_bmi (of_Z 17)) <>
    "Consider consulting a healthcare provider about healthy weight gain.".
Proof. split; [reflexivity | vm_compute; discriminate]. Qed.

(** C5, amended. Every result of [categorize_bmi] carries the message of its
    category: for Underweight and for Obesity a sentence that reads
    [consulting with a healthcare provider], for Normal and for Overweight
    the sentence as listed; each category occurs. *)
Theorem categorize_bmi_message (bmi : float) :
  (category (categorize_bmi bmi) = "Underweight" ->
   message (categorize_bmi bmi) =
     "Consider consulting with a healthcare provider about healthy weight gain.") /\
  (category (categorize_bmi bmi) = "Normal" ->
   message (categorize_bmi bmi) =
     "Your weight is within a healthy range for your height.") /\
  (category (categorize_bmi bmi) = "Overweight" ->
   message (categorize_bmi bmi) =
     "Consider moderate lifestyle changes to achieve a healthier weight.") /\
  (category (categorize_bmi bmi) = "Obesity" ->
   message (categorize_bmi bmi) =
     "Consider consulting with a healthcare provider about weight management.") /\
  category (categorize_bmi (of_Z 17)) = "Underweight" /\
  category (categorize_bmi (of_Z 22)) = "Normal" /\
  category (categorize_bmi (of_Z 27)) = "Overweight" /\
  category (categorize_bmi (of_Z 35)) = "Obesity".
Proof.
  split; [|split; [|split; [|split]]];
    try (unfold categorize_bmi;
         destruct (ltb bmi lit_18_5); [|destruct (ltb bmi lit_24_9);
           [|destruct (ltb bmi lit_29_9)]];
         cbn; intros H; (reflexivity || discriminate H)).
  repeat split; vm_compute; reflexivity.
Qed.

Lemma categorize_bmi_message_witness :
  message (categorize_bmi (of_Z 35)) =
    "Consider consulting with a healthcare provider about weight management.".
Proof. apply (categorize_bmi_message (of_Z 35)). vm_compute. reflexivity. Defined.

(** ** BMI *)

Lemma calculate_bmi_body_numeric weight height weight_kg h :
  float_ weight = Return weight_kg ->
  float_ height = Return h ->
  calculate_bmi_body weight height =
    (squared ← pow2 (div h (of_Z 100)); truediv weight_kg squared).
Proof.
  intros Hw Hh. unfold calculate_bmi_body. rewrite Hw, Hh. simpl.
  destruct (pow2 _); simpl; [destruct (truediv _ _)|]; reflexivity.
Qed.

(** Whatever the body raises, [calculate_bmi] returns. *)
Lemma calculate_bmi_returns (weight height : pyval) :
  exists r : option float, calculate_bmi weight height = Return r.
Proof.
  unfold calculate_bmi.
  destruct (calculate_bmi_body weight height); simpl; eauto.
Qed.

Lemma calculate_bmi_raises (weight height : pyval) :
  non_numeric weight = true \/ non_numeric height = true ->
  calculate_bmi weight height = Return None.
Proof.
  unfold calculate_bmi, calculate_bmi_body.
  intros [H|H].
  - destruct weight as [s| |]; try discriminate. simpl in *.
    destruct (float_of_str s); [discriminate | reflexivity].
  - destruct height as [s| |]; try discriminate. simpl in *.
    destruct (float_ weight); [|reflexivity]. simpl.
    destruct (float_of_str s); [discriminate | reflexivity].
Qed.



(** [float] accepts ["nan"] and ["inf"]: such a weight is a numeral to
    [calculate_bmi], and the result is a float. *)
Lemma calculate_bmi_nan :
  calculate_bmi (PyStr "nan") (PyStr "175") = Return (Some S754_nan) /\
  calculate_bmi (PyStr "70") (PyStr "inf") = Return (Some (S754_zero false)).
Proof. split; vm_compute; reflexivity. Qed.

(** C4. When the weight or the height is a string that is not a numeral,
    [calculate_bmi] returns [None] and raises nothing; so it does for
    ["abc"] and 175. *)
Theorem calculate_bmi_non_numeric :
  (forall weight height : pyval,
     non_numeric weight = true \/ non_numeric height = true ->
     calculate_bmi weight height = Return None) /\
  non_numeric (PyStr "abc") = true /\
  calculate_bmi (PyStr "abc") (PyInt 175) = Return None.
Proof.
  split; [exact calculate_bmi_raises|].
  split; vm_compute; reflexivity.
Qed.

Lemma calculate_bmi_non_numeric_witness :
  calculate_bmi (PyStr "70") (PyStr "1.7.5") = Return None.
Proof.
  apply (proj1 calculate_bmi_non_numeric). right. vm_compute. reflexivity.
Defined.

(** A height of zero, whatever its sign or spelling, makes the last division
    raise. *)
Lemma calculate_bmi_body_zero_height weight height weight_kg h :
  float_ weight = Return weight_kg ->
  float_ height = Return h ->
  is_zero h = true ->
  calculate_bmi_body weight height = Raise ZeroDivisionError.
Proof.
  intros Hw Hh Hz. rewrite (calculate_bmi_body_numeric _ _ _ _ Hw Hh).
  destruct h as [s| | |]; try discriminate.
  rewrite of_Z_100. reflexivity.
Qed.

(** C10. [calculate_bmi] never raises: it returns a float or [None]. With a
    numeric weight and a height of zero, such as ["0"], the division raises
    [ZeroDivisionError] under the [try] and the result is [None], the same as
    for a height that is not a numeral. *)
Theorem calculate_bmi_total :
  (forall weight height : pyval,
     exists r : option float, calculate_bmi weight height = Return r) /\
  (forall (weight height : pyval) (weight_kg h : float),
     float_ weight = Return weight_kg ->
     float_ height = Return h ->
     is_zero h = true ->
     calculate_bmi_body weight height = Raise ZeroDivisionError /\
     calculate_bmi weight height = Return None) /\
  float_ (PyStr "0") = Return (S754_zero false) /\
  (forall (weight : pyval) (s : string),
     non_numeric (PyStr s) = true ->
     calculate_bmi weight (PyStr "0") = calculate_bmi weight (PyStr s)).
Proof.
  split; [|split; [|split]].
  - apply calculate_bmi_returns.
  - intros weight height weight_kg h Hw Hh Hz.
    pose proof (calculate_bmi_body_zero_height _ _ _ _ Hw Hh Hz) as Hbody.
    split; [exact Hbody|]. unfold calculate_bmi. rewrite Hbody. reflexivity.
  - vm_compute. reflexivity.
  - intros weight s Hs.
    rewrite (calculate_bmi_raises weight (PyStr s) (or_intror Hs)).
    unfold calculate_bmi, calculate_bmi_body.
    destruct (float_ weight); reflexivity.
Qed.

Lemma calculate_bmi_total_witness :
  calculate_bmi_body (PyStr "70") (PyStr "0") = Raise ZeroDivisionError /\
  calculate_bmi (PyStr "70") (PyStr "0") = Return None.
Proof.
  apply (proj1 (proj2 calculate_bmi_total) (PyStr "70") (PyStr "0")
           (of_Z 70) (S754_zero false)); vm_compute; reflexivity.
Defined.

(** ** The prompt *)

Lemma scan_prompt_template :
  scan None (list_ascii_of_string prompt_template_resto) = Some prompt_segments.
Proof. vm_compute. reflexivity. Qed.

Lemma fill_lits s segs kwargs :
  fill (lits s ++ segs) kwargs = String.append s <$> fill segs kwargs.
Proof.
  induction s as [|c s IH]; simpl.
  - destruct (fill segs kwargs); reflexivity.
  - unfold lits in IH. rewrite IH. destruct (fill segs kwargs); reflexivity.
Qed.

Lemma fill_field k v segs (kwargs : gmap string string) :
  kwargs !! k = Some v ->
  fill (Field k :: segs) kwargs = String.append v <$> fill segs kwargs.
Proof. intros H. simpl. rewrite H. destruct (fill segs kwargs); reflexivity. Qed.

Lemma fill_lits_end s kwargs : fill (lits s) kwargs = Return s.
Proof.
  induction s as [|c s IH]; simpl; [reflexivity|].
  unfold lits in IH. rewrite IH. reflexivity.
Qed.

Lemma format_prompt (kwargs : gmap string string)
  (name age gender weight height veg_or_nonveg
   disease region state allergics foodtype : string) :
  kwargs !! "name" = Some name -> kwargs !! "age" = Some age ->
  kwargs !! "gender" = Some gender -> kwargs !! "weight" = Some weight ->
  kwargs !! "height" = Some height ->
  kwargs !! "veg_or_nonveg" = Some veg_or_nonveg ->
  kwargs !! "disease" = Some disease -> kwargs !! "region" = Some region ->
  kwargs !! "state" = Some state -> kwargs !! "allergics" = Some allergics ->
  kwargs !! "foodtype" = Some foodtype ->
  format prompt_template_resto kwargs =
  Return (prompt_text name age gender weight height veg_or_nonveg
            disease region state allergics foodtype).
Proof.
  intros H1 H2 H3 H4 H5 H6 H7 H8 H9 H10 H11.
  unfold format. rewrite scan_prompt_template. unfold prompt_segments.
  rewrite !fill_lits.
  rewrite (fill_field _ _ _ _ H1).
  repeat (rewrite fill_lits; erewrite fill_field by eassumption).
  rewrite fill_lits_end. reflexivity.
Qed.

Lemma input_data_lookup (f : form) :
  input_data f !! "name" = Some (name f) /\
  input_data f !! "age" = Some (age f) /\
  input_data f !! "gender" = Some (gender f) /\
  input_data f !! "weight" = Some (weight f) /\
  input_data f !! "height" = Some (height f) /\
  input_data f !! "veg_or_nonveg" = Some (veg_or_nonveg f) /\
  input_data f !! "disease" = Some (or_ (disease f) "None") /\
  input_data f !! "region" = Some (or_ (region f) "Not specified") /\
  input_data f !! "state" = Some (or_ (state f) "Not specified") /\
  input_data f !! "allergics" = Some (or_ (allergics f) "None") /\
  input_data f !! "foodtype" = Some (or_ (foodtype f) "General").
Proof. unfold input_data. repeat split; by simplify_map_eq. Qed.

(** ** The guarded remote call, the usage log and the results column *)

Lemma all_required (f : form) :
  required_filled f = false <->
  name f = "" \/ age f = "" \/ gender f = "" \/ weight f = "" \/
  height f = "" \/ veg_or_nonveg f = "".
Proof.
  unfold required_filled, all. simpl.
  destruct (name f), (age f), (gender f), (weight f), (height f),
    (veg_or_nonveg f); simpl; split; intros H; try discriminate;
    try reflexivity; tauto || (repeat destruct H as [H|H]; discriminate).
Qed.

Lemma format_input_data (f : form) :
  format prompt_template_resto (input_data f) = Return (prompt_of f).
Proof.
  destruct (input_data_lookup f) as (H1&H2&H3&H4&H5&H6&H7&H8&H9&H10&H11).
  unfold prompt_of. by apply format_prompt.
Qed.

Lemma capture_usage_input_data (now : datetime) (f : form) (w : world) :
  capture_usage now (input_data f) w =
  (World (usage_data w ++ [usage_of now f]) (sent w) (page w), Return tt).
Proof.
  destruct (input_data_lookup f) as (_&H2&_&_&_&_&_&H8&_).
  unfold capture_usage, append_usage, usage_of. rewrite H2, H8. reflexivity.
Qed.

Section Properties.

Variable generate_content : string -> reply.

Lemma generate_recommendations_run inputs prompt (w : world) :
  format prompt_template_resto inputs = Return prompt ->
  generate_recommendations generate_content inputs w =
  (World (usage_data w) (sent w ++ [prompt]) (page w),
   match generate_content prompt with
   | Text text => Return text
   | Failure e =>
       if is_Exception e
       then Return ("Error generating recommendations: " ++ str_of e)
       else Raise (Remote e)
   end).
Proof.
  intros H. unfold generate_recommendations, lift, ask_model, mbind, run_bind.
  rewrite H. destruct (generate_content prompt) as [text|e]; [reflexivity|].
  destruct (is_Exception e); reflexivity.
Qed.


(** What [except Exception] does not catch goes on to the caller. *)
Lemma generate_recommendations_passes inputs prompt (w : world) e :
  format prompt_template_resto inputs = Return prompt ->
  generate_content prompt = Failure e -> is_Exception e = false ->
  (generate_recommendations generate_content inputs w).2 = Raise (Remote e).
Proof.
  intros H He Hx. rewrite (generate_recommendations_run _ _ _ H), He, Hx.
  reflexivity.
Qed.

(** The steps of a valid submission before anything is rendered. *)
Ltac run_valid Hs Hr :=
  unfold results_column; rewrite Hs, Hr;
  unfold mbind, run_bind;
  rewrite capture_usage_input_data;
  unfold lift at 1.

Ltac flatten_page := cbn; rewrite <- ?app_assoc; cbn.

(** C6. In a submission with the six required fields filled and the optional
    fields blank, the prompt carries [None] for the health conditions,
    [Not specified] for region and state, [None] for the allergies and
    [General] for the cuisine; this prompt is the one handed to the model. *)
Theorem blank_fields_defaults (now : datetime) (f : form) (w : world) :
  submit_button f = true -> required_filled f = true ->
  disease f = "" -> region f = "" -> state f = "" ->
  allergics f = "" -> foodtype f = "" ->
  let prompt :=
    prompt_text (name f) (age f) (gender f) (weight f) (height f)
      (veg_or_nonveg f) "None" "Not specified" "Not specified" "None"
      "General" in
  format prompt_template_resto (input_data f) = Return prompt /\
  sent (results_column generate_content now f w).1 = (sent w ++ [prompt])%list.
Proof.
  intros Hs Hr Hd Hg Hst Ha Hf prompt.
  assert (Hp : prompt_of f = prompt).
  { unfold prompt_of, prompt. rewrite Hd, Hg, Hst, Ha, Hf. reflexivity. }
  split; [rewrite <- Hp; apply format_input_data|].
  run_valid Hs Hr.
  destruct (calculate_bmi_returns (PyStr (weight f)) (PyStr (height f)))
    as [bmi ->].
  rewrite (generate_recommendations_run _ _ _ (format_input_data f)), Hp.
  destruct (generate_content prompt) as [text|e];
    [|destruct (is_Exception e); [|reflexivity]];
    (destruct bmi as [b|]; [|reflexivity]); cbn;
    (destruct (float_truthy b); [|reflexivity]); cbn;
    (destruct (int_of_str (age f)); [|reflexivity]); cbn;
    destruct (float_of_str (weight f)); reflexivity.
Qed.

(** C7. When a required field is empty, the results column shows the
    validation error and nothing else happens: no prompt is handed to the
    model and the usage log stays as it was. *)
Theorem missing_required_field (now : datetime) (f : form) (w : world) :
  submit_button f = true ->
  name f = "" \/ age f = "" \/ gender f = "" \/ weight f = "" \/
  height f = "" \/ veg_or_nonveg f = "" ->
  results_column generate_content now f w =
  (World (usage_data w) (sent w) (page w ++ validation_error), Return tt).
Proof.
  intros Hs Hmissing. apply all_required in Hmissing.
  unfold results_column. rewrite Hs, Hmissing.
  unfold mbind, run_bind, st, validation_error. flatten_page. reflexivity.
Qed.

(** C8. In a valid submission whose weight or height is not a numeral, the
    usage entry is logged, the prompt of the profile is handed to the model
    and the recommendations are rendered without the BMI box and without
    the BMI figure. In every valid submission, with or without a BMI, the
    prompt handed to the model and the recommendations shown are the same
    functions of the profile and of the reply. *)
Theorem recommendations_without_bmi (now : datetime) (f : form) (w : world) :
  submit_button f = true -> required_filled f = true ->
  (non_numeric (PyStr (weight f)) = true \/
   non_numeric (PyStr (height f)) = true ->
   caught (generate_content (prompt_of f)) = true ->
   results_column generate_content now f w =
   (World (usage_data w ++ [usage_of now f]) (sent w ++ [prompt_of f])
      (page w ++
       results_without_bmi f (shown (generate_content (prompt_of f)))),
    Return tt)) /\
  (let w' := (results_column generate_content now f w).1 in
   usage_data w' = (usage_data w ++ [usage_of now f])%list /\
   sent w' = (sent w ++ [prompt_of f])%list /\
   (caught (generate_content (prompt_of f)) = true ->
    markdown (shown (generate_content (prompt_of f))) ∈ page w')).
Proof.
  intros Hs Hr. split.
  - intros Hnn Hc. run_valid Hs Hr.
    rewrite (calculate_bmi_raises _ _ Hnn).
    rewrite (generate_recommendations_run _ _ _ (format_input_data f)).
    unfold results_without_bmi.
    destruct (generate_content (prompt_of f)) as [text|e]; simpl in Hc |- *;
      [|rewrite Hc]; flatten_page; reflexivity.
  - destruct (results_column generate_content now f w) as [w' o] eqn:E.
    cbn. revert E. run_valid Hs Hr.
    destruct (calculate_bmi_returns (PyStr (weight f)) (PyStr (height f)))
      as [bmi ->].
    rewrite (generate_recommendations_run _ _ _ (format_input_data f)).
    destruct (generate_content (prompt_of f)) as [text|e]; simpl caught;
      [|destruct (is_Exception e);
        [|intros [= <- <-]; cbn;
          split; [reflexivity|split; [reflexivity|discriminate]]]];
      (destruct bmi as [b|]; cbn;
       [destruct (float_truthy b); cbn;
        [destruct (int_of_str (age f)); cbn;
         [destruct (float_of_str (weight f)); cbn|]|]|]);
      intros [= <- <-]; cbn;
      (split; [reflexivity|split; [reflexivity|]]); intros _;
      rewrite !elem_of_app, !list_elem_of_singleton; tauto.
Qed.


End Properties.

(** Without the elements that show the BMI, the two renderings agree. *)
Lemma results_with_bmi_filtered (f : form) bmi x y recommendations :
  List.filter (fun e => negb (shows_bmi e))
    (results_with_bmi f bmi x y recommendations) =
  results_without_bmi f recommendations.
Proof. reflexivity. Qed.


Lemma blank_fields_defaults_witness :
  sent (results_column (fun _ => Text "Eat well.") 7 blank_optional_form
          empty_world).1 =
  [prompt_text "Ann" "30" "Female" "70" "175" "Vegan" "None" "Not specified"
     "Not specified" "None" "General"].
Proof.
  apply (blank_fields_defaults (fun _ => Text "Eat well.") 7
           blank_optional_form empty_world); reflexivity.
Defined.

Lemma missing_required_field_witness :
  results_column (fun _ => Text "Eat well.") 7
    (Form "" "30" "Female" "70" "175" "Vegan" "" "" "" "" "" true)
    (World [UsageEntry 1 "41" "Goa"] ["earlier prompt"] []) =
  (World [UsageEntry 1 "41" "Goa"] ["earlier prompt"] validation_error,
   Return tt).
Proof.
  apply (missing_required_field (fun _ => Text "Eat well.") 7
           (Form "" "30" "Female" "70" "175" "Vegan" "" "" "" "" "" true)
           (World [UsageEntry 1 "41" "Goa"] ["earlier prompt"] [])).
  - reflexivity.
  - left. reflexivity.
Defined.

Lemma recommendations_without_bmi_witness :
  results_column (fun _ => Text "Eat well.") 7 unparsed_weight_form empty_world =
  (World [UsageEntry 7 "30" "Pune"] [prompt_of unparsed_weight_form]
     (results_without_bmi unparsed_weight_form "Eat well."),
   Return tt).
Proof.
  apply (proj1 (recommendations_without_bmi (fun _ => Text "Eat well.") 7
                  unparsed_weight_form empty_world eq_refl eq_refl)).
  - left. vm_compute. reflexivity.
  - reflexivity.
Defined.

(** C9, as stated: refuted by a blank region. Handed to [capture_usage] it is
    logged as the blank string; submitted through the form it is logged as
    [Not specified]; in neither case as [Unknown]. *)
Lemma capture_usage_blank_region :
  usage_data (capture_usage 7 {[ "age" := "30"; "region" := "" ]} empty_world).1
  = [UsageEntry 7 "30" ""] /\
  usage_data (results_column (fun _ => Text "Eat well.") 7 blank_optional_form
                empty_world).1
  = [UsageEntry 7 "30" "Not specified"] /\
  UsageEntry 7 "30" "" <> UsageEntry 7 (or_ "30" "Unknown") (or_ "" "Unknown") /\
  UsageEntry 7 "30" "Not specified" <>
  UsageEntry 7 (or_ "30" "Unknown") (or_ "" "Unknown").
Proof.
  split; [vm_compute; reflexivity|].
  split; [vm_compute; reflexivity|].
  split; vm_compute; discriminate.
Qed.

(** C9, amended. [capture_usage] appends one entry to the end of the usage
    log and leaves the earlier entries, the prompts sent and the page as they
    were. The entry holds the clock reading and, for age and region, the
    value stored under the key, blank or not; [Unknown] stands in only when
    the key is absent. From the results column the entry holds the submitted
    age and the region, or [Not specified] when the region is blank. *)
Theorem capture_usage_appends
  (now : datetime) (user_data : gmap string string) (w : world) :
  let w' := (capture_usage now user_data w).1 in
  (capture_usage now user_data w).2 = Return tt /\
  sent w' = sent w /\ page w' = page w /\
  (exists entry : usage_entry,
     usage_data w' = (usage_data w ++ [entry])%list /\
     timestamp entry = now /\
     user_age entry =
       match user_data !! "age" with Some v => v | None => "Unknown" end /\
     user_region entry =
       match user_data !! "region" with Some v => v | None => "Unknown" end) /\
  length (usage_data w') = S (length (usage_data w)) /\
  (forall (i : nat) (e : usage_entry),
     usage_data w !! i = Some e -> usage_data w' !! i = Some e) /\
  (forall f : form,
     user_data = input_data f ->
     usage_data w' =
       (usage_data w ++
        [UsageEntry now (age f) (or_ (region f) "Not specified")])%list).
Proof.
  cbn. repeat split.
  - eexists. split; [reflexivity|]. cbn.
    destruct (user_data !! "age"), (user_data !! "region"); auto.
  - rewrite length_app. cbn. lia.
  - intros i e H. by apply lookup_app_l_Some.
  - intros f ->. destruct (input_data_lookup f) as (_&H2&_&_&_&_&_&H8&_).
    rewrite H2, H8. reflexivity.
Qed.

Lemma capture_usage_appends_witness :
  usage_data (capture_usage 7 (input_data blank_optional_form)
                (World [UsageEntry 1 "41" "Goa"] [] [])).1 =
  [UsageEntry 1 "41" "Goa"; UsageEntry 7 "30" "Not specified"].
Proof.
  pose proof (capture_usage_appends 7 (input_data blank_optional_form)
                (World [UsageEntry 1 "41" "Goa"] [] [])) as H.
  cbv zeta in H. destruct H as (_ & _ & _ & _ & _ & _ & H).
  exact (H blank_optional_form eq_refl).
Defined.

(** * Further properties *)

(** ** Further properties of the BMI functions *)

Lemma leb_ltb_trans x y z : leb x y = true -> ltb y z = true -> ltb x z = true.
Proof.
  unfold leb, ltb, SFleb, SFltb.
  destruct x as [[]|[]| |sx mx ex], y as [[]|[]| |sy my ey], z as [[]|[]| |sz mz ez];
    try (simpl; congruence);
    try (destruct sx; simpl; congruence);
    try (destruct sy; simpl; congruence);
    try (destruct sz; simpl; congruence);
    try (destruct sx, sy; simpl; congruence);
    try (destruct sy, sz; simpl; congruence);
    try (destruct sx, sz; simpl; congruence).
  rewrite !SFcompare_finite.
  destruct sx, sy, sz; try congruence;
    destruct (Z.compare_spec ex ey), (Z.compare_spec ey ez), (Z.compare_spec ex ez);
    try congruence; try lia;
    destruct (Pos.compare_spec mx my), (Pos.compare_spec my mz), (Pos.compare_spec mx mz);
    simpl; try congruence; try lia.
Qed.

(** X1. A larger BMI never gets a lighter category. *)
Theorem categorize_bmi_monotone (a b : float) :
  leb a b = true ->
  (rank (category (categorize_bmi a)) <= rank (category (categorize_bmi b)))%nat.
Proof.
  intros Hab. unfold categorize_bmi.
  destruct (ltb b lit_18_5) eqn:B1.
  { rewrite (leb_ltb_trans _ _ _ Hab B1). cbn. lia. }
  destruct (ltb b lit_24_9) eqn:B2.
  { rewrite (leb_ltb_trans _ _ _ Hab B2).
    destruct (ltb a lit_18_5); cbn; lia. }
  destruct (ltb b lit_29_9) eqn:B3.
  { rewrite (leb_ltb_trans _ _ _ Hab B3).
    destruct (ltb a lit_18_5), (ltb a lit_24_9); cbn; lia. }
  destruct (ltb a lit_18_5), (ltb a lit_24_9), (ltb a lit_29_9); cbn; lia.
Qed.

Lemma categorize_bmi_monotone_witness :
  (rank (category (categorize_bmi (of_Z 22))) <=
   rank (category (categorize_bmi (of_Z 31))))%nat.
Proof. apply categorize_bmi_monotone. vm_compute. reflexivity. Defined.

Lemma binary_round_aux_opp s m e l :
  binary_round_aux prec emax (negb s) m e l =
  SFopp (binary_round_aux prec emax s m e l).
Proof.
  unfold binary_round_aux.
  destruct (shr_fexp prec emax m e l) as [mrs e'].
  destruct (shr_fexp prec emax _ e' loc_Exact) as [mrs' e''].
  destruct (shr_m mrs'); [reflexivity| |reflexivity].
  destruct (e'' <=? emax - prec); reflexivity.
Qed.

Lemma div_opp_l x y : div (SFopp x) y = SFopp (div x y).
Proof.
  destruct x as [sx|sx| |sx mx ex], y as [sy|sy| |sy my ey];
    try reflexivity; try (destruct sx, sy; reflexivity).
  unfold div. simpl SFopp. unfold SFdiv.
  destruct (SFdiv_core_binary prec emax (Z.pos mx) ex (Z.pos my) ey) as [[mz ez] lz].
  rewrite <- binary_round_aux_opp. destruct sx, sy; reflexivity.
Qed.

Lemma mul_opp_opp x : mul (SFopp x) (SFopp x) = mul x x.
Proof. destruct x as [[]|[]| |[] mx ex]; reflexivity. Qed.

Lemma pow2_opp x : pow2 (SFopp x) = pow2 x.
Proof.
  destruct x as [sx|sx| |sx mx ex]; try reflexivity.
  unfold pow2. simpl SFopp. rewrite <- (mul_opp_opp (S754_finite sx mx ex)).
  reflexivity.
Qed.

Lemma is_zero_opp x : is_zero (SFopp x) = is_zero x.
Proof. destruct x; reflexivity. Qed.

(** X2. The sign of the height does not count, the sign of the weight is the
    sign of the result: no argument is required to be positive. *)
Theorem calculate_bmi_signs (weight weight' height height' : pyval) (w h : float) :
  float_ weight = Return w -> float_ weight' = Return (SFopp w) ->
  float_ height = Return h -> float_ height' = Return (SFopp h) ->
  calculate_bmi weight height' = calculate_bmi weight height /\
  calculate_bmi weight' height = fmap (M:=outcome) (fmap (M:=option) SFopp) (calculate_bmi weight height).
Proof.
  intros Hw Hw' Hh Hh'. unfold calculate_bmi.
  rewrite (calculate_bmi_body_numeric _ _ _ _ Hw Hh),
    (calculate_bmi_body_numeric _ _ _ _ Hw Hh'),
    (calculate_bmi_body_numeric _ _ _ _ Hw' Hh).
  rewrite div_opp_l, pow2_opp. split; [reflexivity|].
  destruct (pow2 (div h (of_Z 100))) as [sq|e]; [|reflexivity].
  cbn. unfold truediv. destruct (is_zero sq); [reflexivity|].
  rewrite div_opp_l. reflexivity.
Qed.

Lemma calculate_bmi_signs_witness :
  calculate_bmi (PyStr "70") (PyStr "-175") =
  calculate_bmi (PyStr "70") (PyStr "175") /\
  calculate_bmi (PyStr "-70") (PyStr "175") =
  fmap (M:=outcome) (fmap (M:=option) SFopp)
    (calculate_bmi (PyStr "70") (PyStr "175")).
Proof.
  apply (calculate_bmi_signs (PyStr "70") (PyStr "-70") (PyStr "175")
           (PyStr "-175") (of_Z 70) (of_Z 175)); vm_compute; reflexivity.
Defined.



(** X4. A height so large that its square overflows makes [**] raise, and
    the result is [None]; an infinite height raises nothing and gives a BMI
    of zero. *)
Theorem calculate_bmi_huge_height (weight height : pyval) (w h : float) :
  float_ weight = Return w -> float_ height = Return h ->
  (is_finite (div h (of_Z 100)) = true ->
   is_inf (mul (div h (of_Z 100)) (div h (of_Z 100))) = true ->
   calculate_bmi_body weight height = Raise OverflowError /\
   calculate_bmi weight height = Return None) /\
  (is_inf h = true -> is_finite w = true ->
   exists z, calculate_bmi weight height = Return (Some z) /\
             is_zero z = true).
Proof.
  intros Hw Hh. unfold calculate_bmi.
  rewrite (calculate_bmi_body_numeric _ _ _ _ Hw Hh). split.
  - intros Hfin Hinf.
    destruct (div h (of_Z 100)) as [s|s| |s m e]; try discriminate.
    unfold pow2. rewrite Hinf. split; reflexivity.
  - intros Hinf Hfin. destruct h as [|s| |]; try discriminate.
    rewrite of_Z_100. cbn.
    destruct w as [sw|sw| |sw mw ew]; try discriminate; eexists;
      split; reflexivity.
Qed.

Lemma calculate_bmi_huge_height_witness :
  calculate_bmi_body (PyStr "70") (PyStr "1e202") = Raise OverflowError /\
  calculate_bmi (PyStr "70") (PyStr "1e202") = Return None.
Proof.
  apply (proj1 (calculate_bmi_huge_height (PyStr "70") (PyStr "1e202")
                  (of_Z 70) (of_decimal false 1 202) eq_refl eq_refl));
    vm_compute; reflexivity.
Defined.

(** ** Further properties of the results column *)

Lemma int_of_str_raises (s : string) (e : exn) :
  int_of_str s = Raise e -> e = ValueError.
Proof.
  unfold int_of_str. destruct (sign _) as [neg body].
  destruct (int_digits 0 0 false body) as [[[v n] rest]|]; [|congruence].
  destruct (lstrip rest); [|congruence].
  destruct (max_str_digits <? n); congruence.
Qed.

Lemma calculate_bmi_some (weight height : pyval) (bmi : float) :
  calculate_bmi weight height = Return (Some bmi) ->
  exists w, float_ weight = Return w.
Proof.
  unfold calculate_bmi, calculate_bmi_body.
  destruct (float_ weight); [eauto | discriminate].
Qed.

Lemma required_filled_fields (f : form) :
  required_filled f = true ->
  truthy (name f) = true /\ truthy (age f) = true /\
  truthy (weight f) = true /\ truthy (height f) = true.
Proof.
  unfold required_filled, all. simpl.
  destruct (truthy (name f)), (truthy (age f)), (truthy (gender f)),
    (truthy (weight f)), (truthy (height f)); simpl; intuition discriminate.
Qed.

Lemma or_truthy (a b : string) : truthy b = true -> truthy (or_ a b) = true.
Proof. unfold or_. destruct a; simpl; auto. Qed.

(** X5. On a form that comes from the widgets the two select boxes are never
    empty, so the test for required fields passes exactly when name, age,
    weight and height are not empty. *)
Theorem widget_form_required (f : form) :
  from_widgets f ->
  (required_filled f = true <->
   name f <> "" /\ age f <> "" /\ weight f <> "" /\ height f <> "").
Proof.
  intros [Hg Hv]. unfold gender_options, diet_options in *.
  assert (Tg : truthy (gender f) = true).
  { rewrite !elem_of_cons, elem_of_nil in Hg.
    destruct Hg as [->|[->|[->|[]]]]; reflexivity. }
  assert (Tv : truthy (veg_or_nonveg f) = true).
  { rewrite !elem_of_cons, elem_of_nil in Hv.
    destruct Hv as [->|[->|[->|[->|[]]]]]; reflexivity. }
  unfold required_filled, all. simpl. rewrite Tg, Tv.
  destruct (name f), (age f), (weight f), (height f); simpl;
    split; intros H; try discriminate; try reflexivity;
    try (repeat split; discriminate); tauto.
Qed.

Lemma widget_form_required_witness :
  required_filled
    (Form "Ann" "30" "Other" "70" "175" "Pescatarian" "" "" "" "" "" true)
  = true.
Proof.
  apply (widget_form_required
           (Form "Ann" "30" "Other" "70" "175" "Pescatarian" "" "" "" "" "" true)).
  - split; cbn; set_solver.
  - cbn. repeat split; discriminate.
Defined.

Section FurtherProperties.

Variable generate_content : string -> reply.

Ltac run_valid Hs Hr :=
  unfold results_column; rewrite Hs, Hr;
  unfold mbind, run_bind;
  rewrite capture_usage_input_data;
  unfold lift at 1.

Ltac flatten_page := cbn; rewrite <- ?app_assoc; cbn.

(** What a run adds to the usage log and to the prompts sent. *)
Lemma results_column_log now (f : form) (w : world) :
  usage_data (results_column generate_content now f w).1 =
    (usage_data w ++ if valid f then [usage_of now f] else [])%list /\
  sent (results_column generate_content now f w).1 =
    (sent w ++ if valid f then [prompt_of f] else [])%list /\
  exists es, page (results_column generate_content now f w).1 =
    (page w ++ es)%list.
Proof.
  destruct (results_column generate_content now f w) as [w' o] eqn:E.
  cbn [fst]. revert E. unfold valid.
  destruct (submit_button f) eqn:Hs; cbn [andb].
  2:{ unfold results_column. rewrite Hs. intros [= <- <-].
      rewrite !app_nil_r. repeat split. exists []. by rewrite app_nil_r. }
  destruct (required_filled f) eqn:Hr.
  2:{ unfold results_column. rewrite Hs, Hr.
      unfold mbind, run_bind, st. cbn. intros [= <- <-]. cbn.
      rewrite !app_nil_r, <- !app_assoc. repeat split. eauto. }
  run_valid Hs Hr.
  destruct (calculate_bmi_returns (PyStr (weight f)) (PyStr (height f)))
    as [bmi ->].
  rewrite (generate_recommendations_run _ _ _ _ (format_input_data f)).
  destruct (generate_content (prompt_of f)) as [text|e];
    [|destruct (is_Exception e);
      [|intros [= <- <-]; cbn; repeat split; exists [];
        by rewrite app_nil_r]];
    (destruct bmi as [b|]; cbn;
     [destruct (float_truthy b); cbn;
      [destruct (int_of_str (age f)); cbn;
       [destruct (float_of_str (weight f)); cbn|]|]|]);
    intros [= <- <-]; cbn; rewrite <- ?app_assoc;
    (split; [reflexivity|split; [reflexivity|eauto]]).
Qed.

(** A run that raises is the run of a valid submission. *)
Lemma results_column_raise_valid now (f : form) (w : world) (e : exn) :
  (results_column generate_content now f w).2 = Raise e -> valid f = true.
Proof.
  unfold valid.
  destruct (submit_button f) eqn:Hs;
    [|unfold results_column; rewrite Hs; discriminate].
  destruct (required_filled f) eqn:Hr;
    [reflexivity|unfold results_column; rewrite Hs, Hr; discriminate].
Qed.

(** X6. A run of the results column keeps what the session held: the usage
    log, the prompts sent and the page are only extended. A valid submission
    adds one usage entry and one prompt, any other run adds none, so the log
    counts the calls made to the model. *)
Theorem results_column_frame now (f : form) (w : world) :
  let w' := (results_column generate_content now f w).1 in
  (exists us ps es,
     usage_data w' = (usage_data w ++ us)%list /\
     sent w' = (sent w ++ ps)%list /\
     page w' = (page w ++ es)%list /\
     length us = length ps /\
     (length us = if valid f then 1 else 0)%nat) /\
  (forall (i : nat) (e : usage_entry),
     usage_data w !! i = Some e -> usage_data w' !! i = Some e).
Proof.
  cbn. destruct (results_column_log now f w) as (Hu & Hp & es & He).
  split.
  - exists (if valid f then [usage_of now f] else []),
      (if valid f then [prompt_of f] else []), es.
    repeat split; try assumption; destruct (valid f); reflexivity.
  - intros i e Hi. rewrite Hu. by apply lookup_app_l_Some.
Qed.

(** X7. Entries that the results column logs have an age and a region that
    are not blank: a log whose entries are so filled stays so. *)
Theorem usage_entries_filled now (f : form) (w : world) :
  Forall (fun e => entry_filled e = true) (usage_data w) ->
  Forall (fun e => entry_filled e = true)
    (usage_data (results_column generate_content now f w).1).
Proof.
  intros H. destruct (results_column_log now f w) as (-> & _).
  apply Forall_app. split; [exact H|].
  unfold valid. destruct (submit_button f); [|constructor].
  destruct (required_filled f) eqn:Hr; [|constructor].
  constructor; [|constructor].
  destruct (required_filled_fields f Hr) as (_ & Ha & _).
  unfold entry_filled, usage_of. cbn. rewrite Ha, or_truthy; reflexivity.
Qed.

(** X8. When the BMI is shown and the age is not an integer literal, the run
    raises [ValueError] at the figure: the recommendations and the heading of
    the figure are on the page, the figure is not, and the usage entry and
    the call to the model have been made. *)
Theorem age_not_an_integer now (f : form) (w : world) (bmi : float) :
  submit_button f = true -> required_filled f = true ->
  calculate_bmi (PyStr (weight f)) (PyStr (height f)) = Return (Some bmi) ->
  float_truthy bmi = true ->
  raises (int_of_str (age f)) = true ->
  caught (generate_content (prompt_of f)) = true ->
  results_column generate_content now f w =
  (World (usage_data w ++ [usage_of now f]) (sent w ++ [prompt_of f])
     (page w ++
      results_before_figure f bmi (shown (generate_content (prompt_of f)))),
   Raise ValueError).
Proof.
  intros Hs Hr Hb Ht Hx Hc. run_valid Hs Hr. rewrite Hb.
  rewrite (generate_recommendations_run _ _ _ _ (format_input_data f)).
  unfold results_before_figure, if_bmi. rewrite Ht.
  destruct (int_of_str (age f)) as [x|e] eqn:Hage; [discriminate|].
  apply int_of_str_raises in Hage as ->.
  destruct (generate_content (prompt_of f)) as [text|e]; simpl in Hc |- *;
    [|rewrite Hc]; cbn; unfold st; flatten_page; reflexivity.
Qed.

(** X9. A BMI of zero, as a weight of zero gives, is false as a condition:
    the value is computed but the BMI box and the figure are left out. *)
Theorem zero_bmi_not_shown now (f : form) (w : world) (w0 h sq : float) :
  submit_button f = true -> required_filled f = true ->
  float_of_str (weight f) = Return w0 -> is_zero w0 = true ->
  float_of_str (height f) = Return h ->
  pow2 (div h (of_Z 100)) = Return sq ->
  is_zero sq = false -> is_nan sq = false ->
  caught (generate_content (prompt_of f)) = true ->
  (exists z, calculate_bmi (PyStr (weight f)) (PyStr (height f))
             = Return (Some z) /\ is_zero z = true) /\
  results_column generate_content now f w =
  (World (usage_data w ++ [usage_of now f]) (sent w ++ [prompt_of f])
     (page w ++
      results_without_bmi f (shown (generate_content (prompt_of f)))),
   Return tt).
Proof.
  intros Hs Hr Hw Hz Hh Hsq Hnz Hnn Hc.
  assert (Hb : exists z, calculate_bmi (PyStr (weight f)) (PyStr (height f))
                         = Return (Some z) /\ is_zero z = true).
  { unfold calculate_bmi.
    rewrite (calculate_bmi_body_numeric (PyStr (weight f)) (PyStr (height f))
               w0 h Hw Hh), Hsq.
    cbn. unfold truediv. rewrite Hnz.
    destruct w0 as [s0| | |]; try discriminate.
    destruct sq as [|s|  |s m e]; try discriminate; eexists;
      split; reflexivity. }
  split; [exact Hb|]. destruct Hb as (z & Hb & Hzz).
  run_valid Hs Hr. rewrite Hb.
  rewrite (generate_recommendations_run _ _ _ _ (format_input_data f)).
  unfold results_without_bmi, if_bmi, float_truthy. rewrite Hzz.
  destruct (generate_content (prompt_of f)) as [text|e]; simpl in Hc |- *;
    [|rewrite Hc]; flatten_page; reflexivity.
Qed.

(** X10. The results column raises in two cases only: [ValueError] from the
    age, when the BMI is shown and the age is not an integer literal, and an
    exception of the remote call that is not an [Exception]. The template
    always finds its keys and the BMI never raises. *)
Theorem results_column_raises now (f : form) (w : world) (e : exn) :
  (results_column generate_content now f w).2 = Raise e ->
  valid f = true /\
  ((e = ValueError /\ raises (int_of_str (age f)) = true /\
    exists bmi, calculate_bmi (PyStr (weight f)) (PyStr (height f))
                = Return (Some bmi) /\ float_truthy bmi = true) \/
   (exists x, e = Remote x /\ generate_content (prompt_of f) = Failure x /\
              is_Exception x = false)).
Proof.
  unfold valid.
  destruct (submit_button f) eqn:Hs;
    [|unfold results_column; rewrite Hs; discriminate].
  destruct (required_filled f) eqn:Hr;
    [|unfold results_column; rewrite Hs, Hr; discriminate].
  run_valid Hs Hr.
  destruct (calculate_bmi (PyStr (weight f)) (PyStr (height f)))
    as [bmi|] eqn:Hb;
    [|destruct (calculate_bmi_returns (PyStr (weight f)) (PyStr (height f)));
      congruence].
  rewrite (generate_recommendations_run _ _ _ _ (format_input_data f)).
  assert (Hrem : forall x, generate_content (prompt_of f) = Failure x ->
            is_Exception x = false ->
            true = true /\
            ((Remote x = ValueError /\ raises (int_of_str (age f)) = true /\
              exists b, Return bmi = Return (Some b) /\ float_truthy b = true) \/
             (exists y, Remote x = Remote y /\
                generate_content (prompt_of f) = Failure y /\
                is_Exception y = false))).
  { intros x Hx Hn. split; [reflexivity|]. right. eauto. }
  destruct (generate_content (prompt_of f)) as [text|x] eqn:Hg;
    [|destruct (is_Exception x) eqn:Hx;
      [|cbn; intros [= <-]; exact (Hrem x eq_refl Hx)]];
    (destruct bmi as [b|]; cbn; [|discriminate]);
    (destruct (float_truthy b) eqn:Ht; cbn; [|discriminate]);
    (destruct (int_of_str (age f)) as [n|e'] eqn:Ha; cbn;
     [destruct (calculate_bmi_some _ _ _ Hb) as [y Hy]; cbn in Hy;
      rewrite Hy; cbn; discriminate|]);
    intros [= <-]; apply int_of_str_raises in Ha as ->;
    (split; [reflexivity|]); left; eauto.
Qed.

End FurtherProperties.


Lemma usage_entries_filled_witness :
  Forall (fun e => entry_filled e = true)
    (usage_data (results_column (fun _ => Text "Eat well.") 7
                   blank_optional_form
                   (World [UsageEntry 1 "41" "Goa"] [] [])).1).
Proof.
  apply usage_entries_filled. repeat constructor.
Defined.

Lemma age_not_an_integer_witness :
  results_column (fun _ => Text "Eat well.") 7 decimal_age_form empty_world =
  (World [usage_of 7 decimal_age_form] [prompt_of decimal_age_form]
     (results_before_figure decimal_age_form
        (S754_finite false 6433713753386423 (-48)) "Eat well."),
   Raise ValueError).
Proof.
  apply (age_not_an_integer (fun _ => Text "Eat well.") 7 decimal_age_form
           empty_world (S754_finite false 6433713753386423 (-48)));
    vm_compute; reflexivity.
Defined.

Lemma zero_bmi_not_shown_witness :
  results_column (fun _ => Text "Eat well.") 7 zero_weight_form empty_world =
  (World [usage_of 7 zero_weight_form] [prompt_of zero_weight_form]
     (results_without_bmi zero_weight_form "Eat well."),
   Return tt).
Proof.
  apply (zero_bmi_not_shown (fun _ => Text "Eat well.") 7 zero_weight_form
           empty_world (S754_zero false) (of_Z 175)
           (mul (of_decimal false 175 (-2)) (of_decimal false 175 (-2))));
    vm_compute; reflexivity.
Defined.

Lemma results_column_raises_witness :
  valid decimal_age_form = true /\
  ((ValueError = ValueError /\
    raises (int_of_str (age decimal_age_form)) = true /\
    exists bmi,
      calculate_bmi (PyStr (weight decimal_age_form))
        (PyStr (height decimal_age_form)) = Return (Some bmi) /\
      float_truthy bmi = true) \/
   (exists x, ValueError = Remote x /\
      (fun _ : string => Text "Eat well.") (prompt_of decimal_age_form)
      = Failure x /\ is_Exception x = false)).
Proof.
  apply (results_column_raises (fun _ => Text "Eat well.") 7 decimal_age_form
           empty_world ValueError).
  vm_compute. reflexivity.
Defined.

(** ** Further properties of the prompt *)

Lemma fields_prompt_segments : fields prompt_segments = prompt_fields.
Proof. vm_compute. reflexivity. Qed.

(** [fill] stops at the first field that the dictionary lacks. *)
Lemma fill_first_missing (segs : list segment) (kwargs : gmap string string) :
  match list_find (fun k => kwargs !! k = None) (fields segs) with
  | Some (_, k) => fill segs kwargs = Raise (KeyError k)
  | None => exists text, fill segs kwargs = Return text
  end.
Proof.
  induction segs as [|[c|k] segs IH]; cbn; [eauto| |].
  - change (omap _ segs) with (fields segs).
    destruct (list_find _ (fields segs)) as [[i k]|].
    + rewrite IH. reflexivity.
    + destruct IH as [text ->]. cbn. eauto.
  - change (omap _ segs) with (fields segs).
    destruct (kwargs !! k) as [v|] eqn:Hk.
    + rewrite decide_False by discriminate.
      destruct (list_find _ (fields segs)) as [[i k']|]; cbn.
      * rewrite IH. reflexivity.
      * destruct IH as [text ->]. cbn. eauto.
    + rewrite decide_True by reflexivity. reflexivity.
Qed.

(** [fill] reads the dictionary at the fields of the text only. *)
Lemma fill_ext (segs : list segment) (kw1 kw2 : gmap string string) :
  (forall k, k ∈ fields segs -> kw1 !! k = kw2 !! k) ->
  fill segs kw1 = fill segs kw2.
Proof.
  induction segs as [|[c|k] segs IH]; cbn; intros H; [reflexivity| |].
  - rewrite IH; [reflexivity|exact H].
  - rewrite (H k) by (left).
    rewrite IH; [reflexivity|]. intros k' Hk'. apply H. by right.
Qed.

Lemma format_first_missing (kwargs : gmap string string) :
  match list_find (fun k => kwargs !! k = None) prompt_fields with
  | Some (_, k) => format prompt_template_resto kwargs = Raise (KeyError k)
  | None => exists prompt, format prompt_template_resto kwargs = Return prompt
  end.
Proof.
  unfold format. rewrite scan_prompt_template, <- fields_prompt_segments.
  apply fill_first_missing.
Qed.

(** X11. Filling the template looks up exactly its eleven fields: two
    dictionaries that agree on them give the same prompt or the same
    [KeyError], whatever else they hold. *)
Theorem format_depends_on_fields (kw1 kw2 : gmap string string) :
  (forall k, k ∈ prompt_fields -> kw1 !! k = kw2 !! k) ->
  format prompt_template_resto kw1 = format prompt_template_resto kw2.
Proof.
  intros H. unfold format. rewrite scan_prompt_template.
  apply fill_ext. rewrite fields_prompt_segments. exact H.
Qed.

Lemma format_depends_on_fields_witness :
  format prompt_template_resto
    (<["note" := "not a field"]> (input_data blank_optional_form)) =
  format prompt_template_resto (input_data blank_optional_form).
Proof.
  apply format_depends_on_fields. intros k Hk.
  apply lookup_insert_ne. intros <-. unfold prompt_fields in Hk.
  rewrite !elem_of_cons, elem_of_nil in Hk. intuition discriminate.
Defined.

(** [format] raises at the first field of the text that is missing. *)
Lemma format_raises_at (kwargs : gmap string string) (i : nat) (k : string) :
  prompt_fields !! i = Some k -> kwargs !! k = None ->
  (forall (j : nat) (k' : string),
     (j < i)%nat -> prompt_fields !! j = Some k' -> is_Some (kwargs !! k')) ->
  format prompt_template_resto kwargs = Raise (KeyError k).
Proof.
  intros Hi Hk Hb. pose proof (format_first_missing kwargs) as H.
  destruct (list_find _ prompt_fields) as [[i' k']|] eqn:E.
  - apply list_find_Some in E as (Hi' & Hk' & Hbefore).
    destruct (Nat.lt_trichotomy i i') as [Hlt|[->|Hgt]].
    + exfalso. exact (Hbefore i k Hi Hlt Hk).
    + congruence.
    + destruct (Hb i' k' Hgt Hi') as [v Hv]. congruence.
  - pose proof (proj1 (list_find_None _ _) E) as Hnone.
    rewrite Forall_forall in Hnone. exfalso. apply (Hnone k); [|exact Hk].
    eapply list_elem_of_lookup_2; eauto.
Qed.

(** X12. The template is filled exactly when the dictionary has all eleven
    fields; otherwise [format] raises [KeyError] with the first field of the
    text that is missing. *)
Theorem format_returns_iff (kwargs : gmap string string) :
  ((exists prompt, format prompt_template_resto kwargs = Return prompt) <->
   forall k, k ∈ prompt_fields -> is_Some (kwargs !! k)) /\
  (forall (i : nat) (k : string),
     prompt_fields !! i = Some k -> kwargs !! k = None ->
     (forall (j : nat) (k' : string),
        (j < i)%nat -> prompt_fields !! j = Some k' -> is_Some (kwargs !! k')) ->
     format prompt_template_resto kwargs = Raise (KeyError k)).
Proof.
  split; [|apply format_raises_at].
  pose proof (format_first_missing kwargs) as H.
  destruct (list_find _ prompt_fields) as [[i k]|] eqn:E.
  - apply list_find_Some in E as (Hi & Hk & _). split.
    + intros [p Hp]. congruence.
    + intros Hall. destruct (Hall k) as [v Hv]; [|congruence].
      eapply list_elem_of_lookup_2; eauto.
  - pose proof (proj1 (list_find_None _ _) E) as Hnone.
    rewrite Forall_forall in Hnone.
    split; [|intros _; exact H].
    intros _ k Hk. specialize (Hnone k Hk).
    destruct (kwargs !! k); [eauto|congruence].
Qed.

Lemma format_returns_iff_witness :
  format prompt_template_resto (delete "state" (input_data blank_optional_form))
  = Raise (KeyError "state").
Proof.
  apply (proj2 (format_returns_iff
                  (delete "state" (input_data blank_optional_form))) 8%nat).
  - reflexivity.
  - vm_compute. reflexivity.
  - intros j k' Hj Hk'.
    do 8 (destruct j as [|j];
          [injection Hk' as <-; vm_compute; eauto|]).
    lia.
Defined.

(** X13. When the dictionary lacks a field of the template,
    [generate_recommendations] raises the [KeyError] of the first missing
    field before the [try]: the error is not turned into a message and the
    model is not called. *)
Theorem generate_recommendations_missing_key
  (generate_content : string -> reply) (inputs : gmap string string)
  (w : world) (i : nat) (k : string) :
  prompt_fields !! i = Some k -> inputs !! k = None ->
  (forall (j : nat) (k' : string),
     (j < i)%nat -> prompt_fields !! j = Some k' -> is_Some (inputs !! k')) ->
  generate_recommendations generate_content inputs w = (w, Raise (KeyError k)).
Proof.
  intros Hi Hk Hb.
  unfold generate_recommendations, lift, mbind, run_bind.
  rewrite (format_raises_at inputs i k Hi Hk Hb). reflexivity.
Qed.

Lemma generate_recommendations_missing_key_witness :
  generate_recommendations (fun _ => Text "Eat well.")
    {[ "name" := "Ann"; "age" := "30" ]} empty_world =
  (empty_world, Raise (KeyError "gender")).
Proof.
  apply (generate_recommendations_missing_key _ _ _ 2%nat).
  - reflexivity.
  - vm_compute. reflexivity.
  - intros j k' Hj Hk'.
    do 2 (destruct j as [|j];
          [injection Hk' as <-; vm_compute; eauto|]).
    lia.
Defined.

(** X14. The dictionary of line 255 has exactly the keys that the template
    names, whatever the form holds; so the template is always filled, each
    value going in as it was typed, braces included. *)
Theorem input_data_keys (f : form) :
  dom (input_data f) = list_to_set prompt_fields /\
  format prompt_template_resto (input_data f) = Return (prompt_of f).
Proof.
  split; [|apply format_input_data].
  unfold input_data, prompt_fields.
  rewrite !dom_insert_L, dom_singleton_L. cbn [list_to_set]. set_solver.
Qed.

(** ** The usage chart and the script *)

Lemma date_range_from_start (today : date) :
  date_range_W_MON start_date today =
  map (fun i => 738886 + 7 * Z.of_nat i)
    (seq 0 (Z.to_nat ((today - 738886) / 7 + 1))).
Proof. reflexivity. Qed.

(** X15. The chart has 15 counts whatever the day, and one label for every
    Monday from 1 January 2024 to today; labels and counts are equally many
    only from 8 to 14 April 2024. *)
Theorem usage_chart_lengths (today : date) :
  let fig := create_usage_tracking_graph today in
  length (bar_y fig) = 15%nat /\
  length (bar_x fig) = Z.to_nat ((today - start_date) / 7 + 1) /\
  (length (bar_x fig) = length (bar_y fig) <->
   ymd 2024 4 8 <= today <= ymd 2024 4 14).
Proof.
  cbn zeta. unfold create_usage_tracking_graph. cbn [bar_x bar_y].
  rewrite date_range_from_start, !length_map, length_seq.
  change start_date with 738886. change (ymd 2024 4 8) with 738984.
  change (ymd 2024 4 14) with 738990.
  split; [reflexivity|]. split; [reflexivity|].
  change (length usage_count) with 15%nat.
  pose proof (Z.div_mod (today - 738886) 7 ltac:(lia)) as Hd.
  pose proof (Z.mod_pos_bound (today - 738886) 7 ltac:(lia)) as Hm.
  split; intros H; lia.
Qed.

(** X16. The labels are the Mondays from 1 January 2024 to today, each one
    once and in order. *)
Theorem usage_chart_weeks (today : date) :
  exists dates : list date,
    bar_x (create_usage_tracking_graph today) = map strftime dates /\
    (forall d, d ∈ dates <->
               start_date <= d <= today /\ weekday d = 0) /\
    StronglySorted Z.lt dates.
Proof.
  exists (date_range_W_MON start_date today). split; [reflexivity|].
  rewrite date_range_from_start. change start_date with 738886.
  set (n := Z.to_nat ((today - 738886) / 7 + 1)).
  pose proof (Z.div_mod (today - 738886) 7 ltac:(lia)) as Hd.
  pose proof (Z.mod_pos_bound (today - 738886) 7 ltac:(lia)) as Hm.
  split.
  - intros d. rewrite list_elem_of_In, in_map_iff. unfold weekday. split.
    + intros (i & <- & Hi). apply in_seq in Hi.
      split; [subst n; lia|].
      replace (738886 + 7 * Z.of_nat i + 6)
        with (0 + (105556 + Z.of_nat i) * 7) by lia.
      rewrite Z.mod_add by lia. reflexivity.
    + intros [Hr Hw].
      pose proof (Z.div_mod (d + 6) 7 ltac:(lia)) as Hd'.
      rewrite Hw in Hd'.
      exists (Z.to_nat ((d + 6) / 7 - 105556)). split; [lia|].
      apply in_seq. subst n. lia.
  - clear Hd Hm. generalize 0%nat as k. induction n as [|n IH]; intros k; cbn.
    + constructor.
    + constructor; [apply IH|].
      rewrite Forall_forall. intros d Hd. apply list_elem_of_In in Hd.
      apply in_map_iff in Hd as (i & <- & Hi). apply in_seq in Hi. lia.
Qed.

(** X17. From 8 April 2024 on the labels that have a count are always the
    same fifteen weeks, whatever the day and whatever the usage log holds. *)
Theorem usage_chart_frozen (today : date) :
  ymd 2024 4 8 <= today ->
  zip (bar_x (create_usage_tracking_graph today))
      (bar_y (create_usage_tracking_graph today)) =
  [ ("2024-01-01", 10); ("2024-01-08", 20); ("2024-01-15", 15);
    ("2024-01-22", 25); ("2024-01-29", 30); ("2024-02-05", 5);
    ("2024-02-12", 10); ("2024-02-19", 8); ("2024-02-26", 15);
    ("2024-03-04", 18); ("2024-03-11", 8); ("2024-03-18", 15);
    ("2024-03-25", 10); ("2024-04-01", 20); ("2024-04-08", 22) ].
Proof.
  intros H. change (ymd 2024 4 8) with 738984 in H.
  unfold create_usage_tracking_graph. cbn [bar_x bar_y].
  rewrite date_range_from_start.
  pose proof (Z.div_mod (today - 738886) 7 ltac:(lia)) as Hd.
  pose proof (Z.mod_pos_bound (today - 738886) 7 ltac:(lia)) as Hm.
  rewrite <- zip_with_take_l. change (length usage_count) with 15%nat.
  rewrite !firstn_map, take_seq.
  replace (15 `min` Z.to_nat ((today - 738886) / 7 + 1))%nat with 15%nat by lia.
  vm_compute. reflexivity.
Qed.

Lemma usage_chart_frozen_witness :
  length (zip (bar_x (create_usage_tracking_graph (ymd 2026 11 4)))
              (bar_y (create_usage_tracking_graph (ymd 2026 11 4)))) = 15%nat.
Proof.
  rewrite (usage_chart_frozen (ymd 2026 11 4)); [reflexivity|].
  vm_compute. discriminate.
Defined.

(** The session that a run with a key leaves. *)
Lemma script_session gc key now today (f : form) (s : session) :
  key_missing key = false ->
  (script gc key now today f s).1.1 =
  Session
    (Some (default [] (usage s) ++
           if valid f then [usage_of now f] else [])%list)
    (prompts s ++ if valid f then [prompt_of f] else [])%list.
Proof.
  intros Hk. unfold script. rewrite Hk.
  pose proof (results_column_log gc now f
                (World (default [] (usage s)) (prompts s) [])) as (Hu & Hp & _).
  destruct (results_column gc now f _) as [w o]. cbn in Hu, Hp.
  rewrite <- Hu, <- Hp. destruct o; reflexivity.
Qed.

(** X18. Without an API key, absent or empty, a run shows the error of line
    13 and stops: over any sequence of runs the session keeps no usage log
    and no prompt goes to the model. *)
Theorem session_without_key (key : option string) (runs : list interaction)
  (s : session) :
  key_missing key = true ->
  session_after key runs s = s /\
  Forall (fun r =>
            script (remote r) key (at_time r) (on_day r) (with_form r) s =
            (s, [api_key_missing], Return tt)) runs.
Proof.
  intros Hk.
  assert (Hrun : forall r,
            script (remote r) key (at_time r) (on_day r) (with_form r) s =
            (s, [api_key_missing], Return tt)).
  { intros r. unfold script. rewrite Hk. reflexivity. }
  split; [|apply Forall_forall; intros r _; apply Hrun].
  induction runs as [|r runs IH]; cbn; [reflexivity|].
  rewrite Hrun. exact IH.
Qed.

Lemma session_without_key_witness :
  session_after (Some "") [Interaction 7 738886 blank_optional_form
                             (fun _ => Text "Eat well.")]
    (Session None []) = Session None [].
Proof.
  apply (session_without_key (Some "")
           [Interaction 7 738886 blank_optional_form (fun _ => Text "Eat well.")]
           (Session None [])).
  reflexivity.
Defined.

(** X19. With an API key, the usage log of a session holds one entry for each
    valid submission, in the order of the runs and after the entries it held
    before, and the model has been handed one prompt for each of them:
    failures of the model and exceptions later in a run do not change the
    count. *)
Theorem session_log (key : option string) (runs : list interaction)
  (s : session) :
  key_missing key = false ->
  let valid_runs := List.filter (fun r => valid (with_form r)) runs in
  default [] (usage (session_after key runs s)) =
    (default [] (usage s) ++
     map (fun r => usage_of (at_time r) (with_form r)) valid_runs)%list /\
  prompts (session_after key runs s) =
    (prompts s ++ map (fun r => prompt_of (with_form r)) valid_runs)%list.
Proof.
  intros Hk. cbn zeta. revert s.
  induction runs as [|r runs IH]; intros s; cbn [session_after List.filter].
  - cbn. rewrite !app_nil_r. split; reflexivity.
  - rewrite (script_session _ _ _ _ _ _ Hk).
    destruct (IH (Session
                    (Some (default [] (usage s) ++
                           if valid (with_form r)
                           then [usage_of (at_time r) (with_form r)] else [])%list)
                    (prompts s ++
                     if valid (with_form r) then [prompt_of (with_form r)]
                     else [])%list)) as [IHu IHp].
    rewrite IHu, IHp. cbn [usage prompts default].
    destruct (valid (with_form r)); cbn; rewrite <- ?app_assoc, ?app_nil_r;
      split; reflexivity.
Qed.

Lemma session_log_witness :
  default [] (usage (session_after (Some "key")
     [Interaction 7 738886 blank_optional_form (fun _ => Text "Eat well.");
      Interaction 8 738886
        (Form "" "30" "Female" "70" "175" "Vegan" "" "" "" "" "" true)
        (fun _ => Text "Eat well.");
      Interaction 9 738887 decimal_age_form
        (fun _ => Failure (Fault true "503"))]
     (Session None []))) =
  [UsageEntry 7 "30" "Not specified"; UsageEntry 9 "30.5" "Not specified"].
Proof.
  refine (proj1 (session_log (Some "key") _ (Session None []) _)).
  reflexivity.
Defined.

(** X20. A run that returns ends its page with the usage statistics and the
    disclaimer, the chart being that of the day; a run that raises has
    neither on its page, while its usage entry and its prompt are already in
    the session. *)
Theorem script_page gc (key : option string) now today (f : form) (s : session) :
  key_missing key = false ->
  let w := results_column gc now f (World (default [] (usage s)) (prompts s) []) in
  let '(s', blocks, o) := script gc key now today f s in
  o = w.2 /\
  (o = Return tt ->
   blocks = ([page_style; main_header; subtitle_powered; form_column] ++
             map results (page w.1) ++
             [subtitle_usage; usage_chart (create_usage_tracking_graph today);
              disclaimer])%list) /\
  (raises o = true ->
   (subtitle_usage ∉ blocks) /\ (disclaimer ∉ blocks) /\
   (forall fig, usage_chart fig ∉ blocks) /\
   usage s' = Some (default [] (usage s) ++ [usage_of now f])%list /\
   prompts s' = (prompts s ++ [prompt_of f])%list).
Proof.
  intros Hk. cbn zeta.
  pose proof (script_session gc key now today f s Hk) as Hs.
  pose proof (results_column_raise_valid gc now f
                (World (default [] (usage s)) (prompts s) [])) as Hr.
  unfold script in *. rewrite Hk in *.
  destruct (results_column gc now f _) as [w [[]|e]]; cbn in Hs, Hr |- *.
  - split; [reflexivity|]. split; [reflexivity|discriminate].
  - split; [reflexivity|]. split; [discriminate|]. intros _.
    rewrite (Hr e eq_refl) in Hs.
    assert (Hin : forall b, b <> page_style -> b <> main_header ->
              b <> subtitle_powered -> b <> form_column ->
              (forall e', b <> results e') ->
              b ∉ (page_style :: main_header :: subtitle_powered ::
                   form_column :: map results (page w))).
    { intros b H1 H2 H3 H4 H5 Hb.
      rewrite !elem_of_cons, list_elem_of_In, in_map_iff in Hb.
      destruct Hb as [?|[?|[?|[?|(e' & He' & _)]]]];
        [congruence|congruence|congruence|congruence|].
      exact (H5 e' (eq_sym He')). }
    inversion Hs; subst. cbn.
    repeat split; try (intros; apply Hin; discriminate).
Qed.

Lemma script_page_witness :
  (script (fun _ => Text "Eat well.") (Some "key") 7 (ymd 2024 1 9)
     decimal_age_form (Session None [])).2 = Raise ValueError /\
  disclaimer ∉
  (script (fun _ => Text "Eat well.") (Some "key") 7 (ymd 2024 1 9)
     decimal_age_form (Session None [])).1.2.
Proof.
  pose proof (script_page (fun _ => Text "Eat well.") (Some "key") 7
                (ymd 2024 1 9) decimal_age_form (Session None []) eq_refl) as H.
  cbn zeta in H.
  destruct (script _ _ _ _ _ _) as [[s' blocks] o] eqn:E.
  destruct H as (Ho & _ & Hr). cbn [fst snd].
  assert (Ho' : o = Raise ValueError) by (rewrite Ho; vm_compute; reflexivity).
  split; [exact Ho'|]. apply Hr. rewrite Ho'. reflexivity.
Defined.

(** ** Further properties of a valid submission *)

(** X21. An exception of the remote call that is not an [Exception] ends the
    run before anything is rendered; the usage entry is logged and the prompt
    has gone out all the same. *)
Theorem signal_ends_run (generate_content : string -> reply) now (f : form)
  (w : world) (x : fault) :
  submit_button f = true -> required_filled f = true ->
  generate_content (prompt_of f) = Failure x -> is_Exception x = false ->
  results_column generate_content now f w =
  (World (usage_data w ++ [usage_of now f]) (sent w ++ [prompt_of f]) (page w),
   Raise (Remote x)).
Proof.
  intros Hs Hr Hg Hx. unfold results_column. rewrite Hs, Hr.
  unfold mbind, run_bind. rewrite capture_usage_input_data. unfold lift at 1.
  destruct (calculate_bmi_returns (PyStr (weight f)) (PyStr (height f)))
    as [bmi ->].
  rewrite (generate_recommendations_run _ _ _ _ (format_input_data f)), Hg, Hx.
  reflexivity.
Qed.

Lemma signal_ends_run_witness :
  results_column (fun _ => Failure (Fault false "KeyboardInterrupt")) 7
    blank_optional_form empty_world =
  (World [usage_of 7 blank_optional_form] [prompt_of blank_optional_form] [],
   Raise (Remote (Fault false "KeyboardInterrupt"))).
Proof.
  apply (signal_ends_run (fun _ => Failure (Fault false "KeyboardInterrupt")) 7
           blank_optional_form empty_world (Fault false "KeyboardInterrupt"));
    reflexivity.
Defined.



(** X23. The five optional values of the dictionary are never empty: what was
    typed is kept as it is, and only an empty field gets its default. *)
Theorem optional_fields_kept (f : form) :
  Forall (fun '(key, typed, default_) =>
            exists v, input_data f !! key = Some v /\ v <> "" /\
                      (typed <> "" -> v = typed) /\
                      (typed = "" -> v = default_))
    [ ("disease", disease f, "None");
      ("region", region f, "Not specified");
      ("state", state f, "Not specified");
      ("allergics", allergics f, "None");
      ("foodtype", foodtype f, "General") ].
Proof.
  destruct (input_data_lookup f) as (_&_&_&_&_&_&H7&H8&H9&H10&H11).
  repeat constructor;
    eexists; (split; [eassumption|]); unfold or_;
    match goal with |- context [truthy ?s] => destruct s end; cbn;
    repeat split; congruence.
Qed.
